(** * OpenGL Polar Sphere Benchmark: a shallow embedding of [Benchmarks/benchmark.py]

    The file has three parts: the model of the program, class by class in
    the order of the source; the vocabulary of the properties; the
    properties and their proofs.

    Conventions of the embedding.

    - Python [int] values are [Z].
    - Python [float] values that only go through [+ - * /], comparisons and
      [int()] (densities, clock differences, frame rates, the Mandelbrot grid
      and iteration) are rationals [Q], computed exactly; these parts are
      executable.
    - Python [float] values that go through [math.sin], [math.cos],
      [math.acos], [math.sqrt] or [math.log] (coordinates, colours, particle
      physics) are real numbers [R]: the ideal values, without rounding.
    - A [for] loop that appends to [self.points] is a [fold_left] whose state
      is the object; [break] and early [return] are recursive functions over
      the remaining iterations.
    - A method that may raise returns an [option]; a block of the driver
      ends by returning or by raising, with the state it has reached.
    - What the program reads from outside is given as data: the values of
      [time.time()] and [random.random()], and for each test of the sweep
      the passes of its render loop (quit event, rendered frame, failure).
    - A division whose divisor cannot be zero where it stands is the total
      division of [Q] or [R]; in [update_physics], where a mass may be zero,
      division is checked.
    - Console output ([print]) is not part of the model, and writing the
      result file is taken to succeed. *)

From Stdlib Require Import ZArith QArith Qround Reals Lra Lia Psatz.
From Stdlib Require Import List String Bool Znumtheory FinFun.
Import ListNotations.

Open Scope Z_scope.

(** ** Python built-ins *)

(** [int(x)] on a float: truncation toward zero. *)
Definition py_int (x : Q) : Z :=
  if Qle_bool 0 x then Qfloor x else Qceiling x.

(** [len(l)]. *)
Definition len {A : Type} (l : list A) : Z := Z.of_nat (List.length l).

(** [range(a, b)] and [range(n)]: empty when [b <= a]. *)
Definition py_range (a b : Z) : list Z :=
  map (fun k => a + Z.of_nat k) (seq 0 (Z.to_nat (b - a))).

Definition range (n : Z) : list Z := py_range 0 n.

(** [enumerate(l)]. *)
Definition enumerate {A : Type} (l : list A) : list (Z * A) :=
  combine (range (len l)) l.

(** ** Data model *)

(** A position [[x, y, z]] and a colour [[r, g, b, a]]. *)
Definition vec3 : Type := R * R * R.
Definition color4 : Type := R * R * R * R.

Definition norm (p : vec3) : R :=
  let '(x, y, z) := p in sqrt (x * x + y * y + z * z).

(** The five pattern classes of the file. *)
Inductive pattern_class : Type :=
  | ClsFibonacciSphere
  | ClsPrimeSpiral
  | ClsMandelbrotSphere
  | ClsLorenzAttractor
  | ClsParticleSystem.

(** A pattern object.  [points] and [colors] are created by
    [PolarSpherePattern.__init__]; [velocities] and [masses] are attributes
    that exist only once some method has assigned them ([None] here means
    that the attribute is absent, and reading it raises [AttributeError]). *)
Record PolarSpherePattern : Type := mkPattern {
  cls : pattern_class;
  name : string;
  description : string;
  points : list vec3;
  colors : list color4;
  velocities : option (list vec3);
  masses : option (list R)
}.

Definition set_points (self : PolarSpherePattern) (ps : list vec3) :=
  mkPattern (cls self) (name self) (description self) ps (colors self)
            (velocities self) (masses self).

Definition set_colors (self : PolarSpherePattern) (cs : list color4) :=
  mkPattern (cls self) (name self) (description self) (points self) cs
            (velocities self) (masses self).

Definition set_velocities (self : PolarSpherePattern) (vs : list vec3) :=
  mkPattern (cls self) (name self) (description self) (points self)
            (colors self) (Some vs) (masses self).

Definition set_masses (self : PolarSpherePattern) (ms : list R) :=
  mkPattern (cls self) (name self) (description self) (points self)
            (colors self) (velocities self) (Some ms).

(** [self.points.append(p)] and [self.colors.append(c)]. *)
Definition append_point (self : PolarSpherePattern) (p : vec3) :=
  set_points self (points self ++ [p]).

Definition append_color (self : PolarSpherePattern) (c : color4) :=
  set_colors self (colors self ++ [c]).

(** [PolarSpherePattern.__init__] and [get_point_count]. *)
Definition base_init (c : pattern_class) (nm descr : string) :=
  mkPattern c nm descr [] [] None None.

Definition get_point_count (self : PolarSpherePattern) : Z :=
  len (points self).

(** ** FibonacciSphere *)

Module FibonacciSphere.

Definition init : PolarSpherePattern :=
  base_init ClsFibonacciSphere "Fibonacci Sphere"
            "Golden ratio spiral distribution".

Definition golden_ratio : R := ((1 + sqrt 5) / 2)%R.

(** One iteration of the loop of [generate].  [now k] is the value of the
    [k]-th call of [time.time()] made by this [generate]; the body makes
    three calls per point. *)
Definition body (now : Z -> R) (n_points : Z)
           (self : PolarSpherePattern) (i : Z) : PolarSpherePattern :=
  let theta := (2 * PI * IZR i / golden_ratio)%R in
  let phi := acos (1 - IZR (2 * i)%Z / IZR n_points)%R in
  let x := (sin phi * cos theta)%R in
  let y := (sin phi * sin theta)%R in
  let z := cos phi in
  let self := append_point self (x, y, z) in
  let r := (Rabs (sin (theta * 3.7 + now (3 * i)%Z * 0.1)) * (x + 1) / 2)%R in
  let g := (Rabs (cos (phi * 2.3 + now (3 * i + 1)%Z * 0.15)) * (y + 1) / 2)%R in
  let b := (Rabs (sin ((theta + phi) * 1.9 + now (3 * i + 2)%Z * 0.05))
            * (z + 1) / 2)%R in
  let alpha := (0.8 + 0.2 * sin (IZR i * 0.01))%R in
  append_color self (r, g, b, alpha).

Definition generate (now : Z -> R) (self : PolarSpherePattern)
           (density : Q) : PolarSpherePattern :=
  let self := set_points self [] in
  let self := set_colors self [] in
  let n_points := py_int (density * 10000) in
  fold_left (body now n_points) (range n_points) self.

End FibonacciSphere.

(** ** PrimeSpiral *)

Module PrimeSpiral.

Definition init : PolarSpherePattern :=
  base_init ClsPrimeSpiral "Prime Spiral"
            "Prime numbers mapped to sphere coordinates".

(** The trial-division loop: [false] as soon as a candidate divides [n]
    (the [break] / early [return]), [true] when the candidates run out. *)
Fixpoint no_divisor (n : Z) (candidates : list Z) : bool :=
  match candidates with
  | [] => true
  | i :: rest => if n mod i =? 0 then false else no_divisor n rest
  end.

(** The method [is_prime]; [int(math.sqrt(n))] is the integer square
    root. *)
Definition is_prime (n : Z) : bool :=
  if n <? 2 then false
  else no_divisor n (py_range 2 (Z.sqrt n + 1)).

(** First loop of [generate]: the body for one [n] of [range(2, max_num)]. *)
Definition collect (primes : list Z) (n : Z) : list Z :=
  let sqrt_n := Z.sqrt n in
  let is_prime := no_divisor n (py_range 2 (sqrt_n + 1)) in
  if is_prime then primes ++ [n] else primes.

Definition primes_upto (max_num : Z) : list Z :=
  fold_left collect (py_range 2 max_num) [].

(** Second loop of [generate]: the body for one [(i, prime)]. *)
Definition body (max_num : Z) (primes : list Z)
           (self : PolarSpherePattern) (ip : Z * Z) : PolarSpherePattern :=
  let '(i, prime) := ip in
  let t := (IZR prime / IZR max_num * 50 * PI)%R in
  let phi := acos (1 - 2 * (IZR i / IZR (len primes)))%R in
  let offset_x := (sin (IZR prime * 0.001) * 0.1)%R in
  let offset_y := (cos (IZR prime * 0.0007) * 0.1)%R in
  let x := (sin phi * cos t + offset_x)%R in
  let y := (sin phi * sin t + offset_y)%R in
  let z := cos phi in
  let self := append_point self (x, y, z) in
  let intensity := (ln (IZR prime) / ln (IZR max_num))%R in
  let hue_shift := (sin (IZR prime * 0.01) * 0.5 + 0.5)%R in
  let saturation := (cos (IZR i * 0.001) * 0.3 + 0.7)%R in
  append_color self
    ((intensity * hue_shift)%R, saturation, (1.0 - intensity)%R, 0.9%R).

Definition generate (self : PolarSpherePattern) (density : Q)
  : PolarSpherePattern :=
  let self := set_points self [] in
  let self := set_colors self [] in
  let max_num := py_int (density * 20000) in
  let primes := primes_upto max_num in
  fold_left (body max_num primes) (enumerate primes) self.

End PrimeSpiral.

(** ** MandelbrotSphere *)

Module MandelbrotSphere.

Definition init : PolarSpherePattern :=
  base_init ClsMandelbrotSphere "Mandelbrot Sphere"
            "Mandelbrot set iterations on sphere".

(** A Python [complex]: real and imaginary part. *)
Definition complex : Type := Q * Q.

Definition cadd (a b : complex) : complex :=
  (fst a + fst b, snd a + snd b)%Q.

Definition cmul (a b : complex) : complex :=
  (fst a * fst b - snd a * snd b, fst a * snd b + snd a * fst b)%Q.

(** [abs(z) > 2], decided on the squared modulus. *)
Definition abs_gt_2 (z : complex) : bool :=
  negb (Qle_bool (fst z * fst z + snd z * snd z) 4).

(** The loop of [mandelbrot_iterations] over the remaining values of [n]:
    [return n] as soon as [abs(z) > 2], [return max_iter] after the loop. *)
Fixpoint escape (c : complex) (max_iter : Z) (ns : list Z) (z : complex)
  : Z :=
  match ns with
  | [] => max_iter
  | n :: rest =>
      if abs_gt_2 z then n else escape c max_iter rest (cadd (cmul z z) c)
  end.

Definition mandelbrot_iterations (c : complex) (max_iter : Z) : Z :=
  escape c max_iter (range max_iter) (0, 0)%Q.

Definition layers : Z := 3.

(** The body of the innermost loop, for the grid cell [(i, j)] of
    [layer]. *)
Definition cell (resolution max_iter layer i : Z)
           (self : PolarSpherePattern) (j : Z) : PolarSpherePattern :=
  let z_offset := (IZR (layer - 1) * 0.3)%R in
  let x := ((inject_Z i / inject_Z resolution - 0.5) * 4)%Q in
  let y := ((inject_Z j / inject_Z resolution - 0.5) * 4)%Q in
  let c := ((x + inject_Z layer * 0.1)%Q, (y + inject_Z layer * 0.05)%Q) in
  let iterations := mandelbrot_iterations c max_iter in
  if iterations <? max_iter then
    let theta := (Q2R x * PI * (1 + IZR layer * 0.2))%R in
    let phi := (Q2R y * PI / 2 + PI / 2)%R in
    let distortion := (sin (IZR iterations * 0.1) * 0.1)%R in
    let sphere_x := ((sin phi * cos theta) * (1 + distortion))%R in
    let sphere_y := ((sin phi * sin theta) * (1 + distortion))%R in
    let sphere_z := (cos phi + z_offset)%R in
    let self := append_point self (sphere_x, sphere_y, sphere_z) in
    let intensity := (IZR iterations / IZR max_iter)%R in
    let layer_hue := (IZR layer / IZR layers)%R in
    let r := (intensity * sin (layer_hue * PI))%R in
    let g := (0.3 + layer_hue * 0.4)%R in
    let b := ((1.0 - intensity) * cos (layer_hue * PI))%R in
    let alpha := (0.7 + intensity * 0.3)%R in
    append_color self (r, g, b, alpha)
  else self.

Definition row (resolution max_iter layer : Z)
           (self : PolarSpherePattern) (i : Z) : PolarSpherePattern :=
  fold_left (cell resolution max_iter layer i) (range resolution) self.

Definition sheet (resolution max_iter : Z)
           (self : PolarSpherePattern) (layer : Z) : PolarSpherePattern :=
  fold_left (row resolution max_iter layer) (range resolution) self.

Definition generate (self : PolarSpherePattern) (density : Q)
  : PolarSpherePattern :=
  let self := set_points self [] in
  let self := set_colors self [] in
  let resolution := py_int (density * 100) in
  let max_iter := py_int (density * 50) in
  fold_left (sheet resolution max_iter) (range layers) self.

End MandelbrotSphere.

(** ** LorenzAttractor *)

Module LorenzAttractor.

Definition init : PolarSpherePattern :=
  base_init ClsLorenzAttractor "Lorenz Attractor"
            "Chaotic system on sphere surface".

Definition sigma : R := 10.0.
Definition rho : R := 28.0.
Definition beta : R := (8.0 / 3.0)%R.
Definition attractors : Z := 3.
Definition dt : R := 0.005.

(** The state of the inner loop: the object and the local [x, y, z]. *)
Definition orbit : Type := PolarSpherePattern * vec3.

(** One Euler step of attractor number [attractor], step index [i]. *)
Definition body (attractor steps : Z) (st : orbit) (i : Z) : orbit :=
  let '(self, (x, y, z)) := st in
  let s := (sigma + IZR attractor * 2)%R in
  let r := (rho + IZR attractor * 5)%R in
  let b := (beta + IZR attractor * 0.5)%R in
  let dx := (s * (y - x) + sin (IZR i * 0.001) * 0.1)%R in
  let dy := (x * (r - z) - y + cos (IZR i * 0.0007) * 0.1)%R in
  let dz := (x * y - b * z + sin (x * 0.1) * 0.05)%R in
  let x := (x + dx * dt)%R in
  let y := (y + dy * dt)%R in
  let z := (z + dz * dt)%R in
  let noise_x := (sin (IZR i * 0.01 + IZR attractor) * 0.02)%R in
  let noise_y := (cos (IZR i * 0.013 + IZR attractor) * 0.02)%R in
  let noise_z := (sin (IZR i * 0.007 + IZR attractor) * 0.01)%R in
  let magnitude :=
    sqrt ((x + noise_x) ^ 2 + (y + noise_y) ^ 2 + (z + noise_z) ^ 2)%R in
  if Rlt_dec 0 magnitude then
    let norm_x := ((x + noise_x) / magnitude)%R in
    let norm_y := ((y + noise_y) / magnitude)%R in
    let norm_z := ((z + noise_z) / magnitude)%R in
    let self := append_point self (norm_x, norm_y, norm_z) in
    let t := (IZR i / IZR steps)%R in
    let attractor_hue := (IZR attractor / IZR attractors)%R in
    let r_color := (t * sin (attractor_hue * 2 * PI))%R in
    let g_color := sin (t * PI + attractor_hue * PI)%R in
    let b_color := ((1.0 - t) * cos (attractor_hue * 3 * PI))%R in
    let alpha := (0.6 + 0.4 * sin (t * 4 * PI))%R in
    (append_color self (Rabs r_color, Rabs g_color, Rabs b_color, alpha),
     (x, y, z))
  else (self, (x, y, z)).

(** The body of the outer loop: one attractor, from its initial
    conditions. *)
Definition attractor_run (density : Q)
           (self : PolarSpherePattern) (attractor : Z)
  : PolarSpherePattern :=
  let start : vec3 :=
    ((1.0 + IZR attractor)%R,
     (1.0 - IZR attractor * 0.5)%R,
     (1.0 + IZR attractor * 0.3)%R) in
  let steps := py_int (density * 5000) in
  fst (fold_left (body attractor steps) (range steps) (self, start)).

Definition generate (self : PolarSpherePattern) (density : Q)
  : PolarSpherePattern :=
  let self := set_points self [] in
  let self := set_colors self [] in
  fold_left (attractor_run density) (range attractors) self.

End LorenzAttractor.

(** ** Exceptions

    A computation that may raise is an [option]: [None] stands for the
    exception ([AttributeError], [IndexError], [ZeroDivisionError]). *)

Definition bind {A B : Type} (m : option A) (k : A -> option B) : option B :=
  match m with
  | Some a => k a
  | None => None
  end.

Notation "x <- m ;; k" := (bind m (fun x => k))
  (at level 61, m at next level, right associativity).
Notation "' pat <- m ;; k" := (bind m (fun x => match x with pat => k end))
  (at level 61, pat pattern, m at next level, right associativity).

(** [l[i]] for an index that is never negative here. *)
Definition item {A : Type} (l : list A) (i : Z) : option A :=
  nth_error l (Z.to_nat i).

(** [l[i] = v], after [l[i]] has been read. *)
Fixpoint store {A : Type} (l : list A) (k : nat) (v : A) : list A :=
  match l, k with
  | [], _ => []
  | _ :: t, O => v :: t
  | h :: t, S k' => h :: store t k' v
  end.

(** Float division: [ZeroDivisionError] on a zero divisor. *)
Definition fdiv (a b : R) : option R :=
  if Req_dec_T b 0 then None else Some (a / b)%R.

(** ** ParticleSystem

    The class body defines [__init__] and [generate] twice: after
    [update_physics] comes a second [__init__] and a second [generate]
    (a copy of the head of [LorenzAttractor]).  In Python the later
    definition of a name in a class body replaces the earlier one, so
    [ParticleSystem()] runs the second [__init__] and
    [ParticleSystem.generate] is the second [generate]. *)

Module ParticleSystem.

(** The first [__init__], replaced by the second. *)
Definition init_shadowed : PolarSpherePattern :=
  set_masses
    (set_velocities
       (base_init ClsParticleSystem "Particle System"
          "Physics-based particles with gravitational attraction") [])
    [].

(** The second [__init__], the one in effect: it sets neither
    [velocities] nor [masses]. *)
Definition init : PolarSpherePattern :=
  base_init ClsParticleSystem "Lorenz Attractor"
            "Chaotic system on sphere surface".

(** [random.uniform(a, b)] is [a + (b - a) * random.random()]. *)
Definition uniform (a b u : R) : R := (a + (b - a) * u)%R.

(** The body of the loop of the first [generate].  [rnd k] is the value of
    the [k]-th call of [random.random()], six calls per particle. *)
Definition body_shadowed (rnd : Z -> R)
           (self : PolarSpherePattern) (i : Z) : option PolarSpherePattern :=
  let theta := uniform 0 (2 * PI) (rnd (6 * i)) in
  let phi := uniform 0 PI (rnd (6 * i + 1)) in
  let x := (sin phi * cos theta)%R in
  let y := (sin phi * sin theta)%R in
  let z := cos phi in
  let self := append_point self (x, y, z) in
  let vx := uniform (-0.01) 0.01 (rnd (6 * i + 2)) in
  let vy := uniform (-0.01) 0.01 (rnd (6 * i + 3)) in
  let vz := uniform (-0.01) 0.01 (rnd (6 * i + 4)) in
  vs <- velocities self ;;
  let self := set_velocities self (vs ++ [(vx, vy, vz)]) in
  let mass := uniform 0.5 2.0 (rnd (6 * i + 5)) in
  ms <- masses self ;;
  let self := set_masses self (ms ++ [mass]) in
  let r := (mass / 2.0)%R in
  let g := Rabs z in
  let b := ((Rabs x + Rabs y) / 2)%R in
  Some (append_color self (r, g, b, 0.8%R)).

(** The first [generate] (lines 192-226), replaced by the second. *)
Definition generate_shadowed (rnd : Z -> R) (self : PolarSpherePattern)
           (density : Q) : option PolarSpherePattern :=
  let self := set_points self [] in
  let self := set_colors self [] in
  let self := set_velocities self [] in
  let self := set_masses self [] in
  let n_particles := py_int (density * 5000) in
  fold_left (fun acc i => self <- acc ;; body_shadowed rnd self i)
            (range n_particles) (Some self).

(** The second [generate] (lines 288-309), the one in effect: its loop
    only assigns local variables. *)
Definition generate (self : PolarSpherePattern) (density : Q)
  : PolarSpherePattern :=
  let self := set_points self [] in
  let self := set_colors self [] in
  let sigma := 10.0%R in
  let rho := 28.0%R in
  let beta := (8.0 / 3.0)%R in
  let attractors := 3 in
  fold_left
    (fun self attractor =>
       let s := (sigma + IZR attractor * 2)%R in
       let r := (rho + IZR attractor * 5)%R in
       let b := (beta + IZR attractor * 0.5)%R in
       let xyz : vec3 :=
         ((1.0 + IZR attractor)%R,
          (1.0 - IZR attractor * 0.5)%R,
          (1.0 + IZR attractor * 0.3)%R) in
       let dt := 0.005%R in
       let steps := py_int (density * 5000) in
       self)
    (range attractors) self.

Definition G : R := 0.0001.

(** [forces[k][0] += ax] and so on, for one row of [forces]. *)
Definition add_force (forces : list vec3) (k : Z) (d : vec3)
  : option (list vec3) :=
  '(fx, fy, fz) <- item forces k ;;
  let '(ax, ay, az) := d in
  Some (store forces (Z.to_nat k) ((fx + ax)%R, (fy + ay)%R, (fz + az)%R)).

(** [forces[k][0] -= ax] and so on. *)
Definition sub_force (forces : list vec3) (k : Z) (d : vec3)
  : option (list vec3) :=
  '(fx, fy, fz) <- item forces k ;;
  let '(ax, ay, az) := d in
  Some (store forces (Z.to_nat k) ((fx - ax)%R, (fy - ay)%R, (fz - az)%R)).

(** The body of the inner force loop for the pair [(i, j)]. *)
Definition pair_force (self : PolarSpherePattern) (i : Z)
           (acc : option (list vec3)) (j : Z) : option (list vec3) :=
  forces <- acc ;;
  '(x1, y1, z1) <- item (points self) i ;;
  '(x2, y2, z2) <- item (points self) j ;;
  let dx := (x2 - x1)%R in
  let dy := (y2 - y1)%R in
  let dz := (z2 - z1)%R in
  let r := (sqrt (dx * dx + dy * dy + dz * dz) + 0.001)%R in
  ms <- masses self ;;
  mi <- item ms i ;;
  mj <- item ms j ;;
  f <- fdiv (G * mi * mj) (r * r) ;;
  ux <- fdiv dx r ;;
  uy <- fdiv dy r ;;
  uz <- fdiv dz r ;;
  forces <- add_force forces i ((f * ux)%R, (f * uy)%R, (f * uz)%R) ;;
  sub_force forces j ((f * ux)%R, (f * uy)%R, (f * uz)%R).

(** The outer force loop: [for j in range(i + 1, n)]. *)
Definition row_forces (self : PolarSpherePattern) (n : Z)
           (acc : option (list vec3)) (i : Z) : option (list vec3) :=
  fold_left (pair_force self i) (py_range (i + 1) n) acc.

Definition compute_forces (self : PolarSpherePattern) (n : Z)
  : option (list vec3) :=
  fold_left (row_forces self n) (range n)
            (Some (map (fun _ => (0, 0, 0)%R) (range n))).

(** Velocity update of one particle: [v += force / mass * dt], one
    division per coordinate. *)
Definition kick (dt : R) (v f : vec3) (m : R) : option vec3 :=
  let '(vx, vy, vz) := v in
  let '(fx, fy, fz) := f in
  ax <- fdiv fx m ;;
  ay <- fdiv fy m ;;
  az <- fdiv fz m ;;
  Some ((vx + ax * dt)%R, (vy + ay * dt)%R, (vz + az * dt)%R).

(** Position update of one particle: [p += v * dt]. *)
Definition drift (dt : R) (p v : vec3) : vec3 :=
  let '(px, py, pz) := p in
  let '(vx, vy, vz) := v in
  ((px + vx * dt)%R, (py + vy * dt)%R, (pz + vz * dt)%R).

Definition magnitude (p : vec3) : R :=
  let '(px, py, pz) := p in sqrt (px ^ 2 + py ^ 2 + pz ^ 2)%R.

(** [if mag > 0: p /= mag]. *)
Definition renormalise (p : vec3) : vec3 :=
  let '(px, py, pz) := p in
  let mag := magnitude p in
  if Rlt_dec 0 mag then ((px / mag)%R, (py / mag)%R, (pz / mag)%R) else p.

(** The body of the second loop of [update_physics], for particle [i]. *)
Definition integrate (dt : R) (forces : list vec3)
           (acc : option PolarSpherePattern) (i : Z)
  : option PolarSpherePattern :=
  self <- acc ;;
  vs <- velocities self ;;
  v <- item vs i ;;
  f <- item forces i ;;
  ms <- masses self ;;
  m <- item ms i ;;
  v <- kick dt v f m ;;
  let self := set_velocities self (store vs (Z.to_nat i) v) in
  p <- item (points self) i ;;
  let p := renormalise (drift dt p v) in
  Some (set_points self (store (points self) (Z.to_nat i) p)).

Definition update_physics (dt : R) (self : PolarSpherePattern)
  : option PolarSpherePattern :=
  let n := len (points self) in
  forces <- compute_forces self n ;;
  fold_left (integrate dt forces) (range n) (Some self).

(** The default [dt=0.001]. *)
Definition default_dt : R := 0.001.

End ParticleSystem.

(** ** BenchmarkResult *)

Module BenchmarkResult.

(** One record of [pattern_results]: the keys ['density'], ['points'],
    ['fps'] and ['render_time_ms']. *)
Record entry : Type := mkEntry {
  density : Q;
  point_count : Z;
  fps : Q;
  render_time_ms : Q
}.

(** [pattern_results] is a [dict]: keys are unique and keep their
    insertion order. *)
Definition results : Type := list (string * list entry).

Record t : Type := mk {
  pattern_results : results;
  system_info : list (string * string);
  timestamp : string
}.

(** [__init__]; [stamp] is [datetime.now().isoformat()]. *)
Definition init (stamp : string) : t := mk [] [] stamp.

(** [key in d]. *)
Definition contains (d : results) (key : string) : bool :=
  existsb (fun kv => String.eqb (fst kv) key) d.

(** [d[key]]. *)
Fixpoint lookup (d : results) (key : string) : option (list entry) :=
  match d with
  | [] => None
  | (k, v) :: rest => if String.eqb k key then Some v else lookup rest key
  end.

(** [d[key].append(e)] for a key that is present. *)
Fixpoint append_at (d : results) (key : string) (e : entry) : results :=
  match d with
  | [] => []
  | (k, v) :: rest =>
      if String.eqb k key then (k, v ++ [e]) :: rest
      else (k, v) :: append_at rest key e
  end.

Definition add_result (self : t) (pattern_name : string)
           (density : Q) (points : Z) (fps render_time : Q) : t :=
  let d := pattern_results self in
  let d := if contains d pattern_name then d else d ++ [(pattern_name, [])] in
  let e := mkEntry density points fps (render_time * 1000)%Q in
  mk (append_at d pattern_name e) (system_info self) (timestamp self).

(** The built-in [max] on a non-empty sequence [x :: rest]: the running
    maximum is replaced only by an item that is greater. *)
Definition py_max {A : Type} (gt : A -> A -> bool) (x : A) (rest : list A)
  : A :=
  fold_left (fun m y => if gt y m then y else m) rest x.

Definition Qgtb (a b : Q) : bool := negb (Qle_bool a b).

(** One line of the summary; the text formatting of the two numbers is
    not modelled. *)
Record summary_line : Type := mkLine {
  line_pattern : string;
  max_fps : Q;
  max_points : Z
}.

Definition get_summary (self : t) : list summary_line :=
  fold_left
    (fun summary kv =>
       let '(pattern, rs) := kv in
       match rs with
       | [] => summary
       | r :: rest =>
           let max_fps := py_max Qgtb (fps r) (map fps rest) in
           let max_points :=
             py_max Z.gtb (point_count r) (map point_count rest) in
           summary ++ [mkLine pattern max_fps max_points]
       end)
    (pattern_results self) [].

(** The content of a result file: what [json.dump] is given. *)
Record document : Type := mkDocument {
  doc_timestamp : string;
  doc_system_info : list (string * string);
  doc_results : results
}.

(** A file system: file name to content; writing replaces. *)
Definition file_system : Type := list (string * document).

Definition save_to_file (self : t) (filename : string) (fs : file_system)
  : file_system :=
  (filename,
   mkDocument (timestamp self) (system_info self) (pattern_results self))
  :: filter (fun kv => negb (String.eqb (fst kv) filename)) fs.

End BenchmarkResult.

(** ** Method dispatch *)

(** [pattern.generate(density)], by the class of the object.  [now] is the
    clock read by [FibonacciSphere.generate]. *)
Definition generate (now : Z -> R) (pattern : PolarSpherePattern)
           (density : Q) : PolarSpherePattern :=
  match cls pattern with
  | ClsFibonacciSphere => FibonacciSphere.generate now pattern density
  | ClsPrimeSpiral => PrimeSpiral.generate pattern density
  | ClsMandelbrotSphere => MandelbrotSphere.generate pattern density
  | ClsLorenzAttractor => LorenzAttractor.generate pattern density
  | ClsParticleSystem => ParticleSystem.generate pattern density
  end.

(** [cls()]: the constructor in effect for each class. *)
Definition construct (c : pattern_class) : PolarSpherePattern :=
  match c with
  | ClsFibonacciSphere => FibonacciSphere.init
  | ClsPrimeSpiral => PrimeSpiral.init
  | ClsMandelbrotSphere => MandelbrotSphere.init
  | ClsLorenzAttractor => LorenzAttractor.init
  | ClsParticleSystem => ParticleSystem.init
  end.

(** ** OpenGLBenchmark *)

Module OpenGLBenchmark.

Inductive client_state : Type := GL_VERTEX_ARRAY | GL_COLOR_ARRAY.

(** The calls that [render_pattern] sends to the graphics context. *)
Inductive gl_call : Type :=
  | glClear
  | glLoadIdentity
  | glTranslatef (x y z : R)
  | glRotatef (angle x y z : R)
  | glScalef (x y z : R)
  | glPushMatrix
  | glPopMatrix
  | glEnableClientState (c : client_state)
  | glDisableClientState (c : client_state)
  | glVertexPointer (vertices : list vec3)
  | glColorPointer (colours : list color4)
  | glPointSize (size : R)
  | glDrawArrays (first count : Z)
  | glBegin
  | glEnd
  | glColor4f (r g b a : R)
  | glVertex3f (x y z : R)
  | gluSphere (radius : R) (slices stacks : Z)
  | display_flip.

Definition threshold : Z := 50000.

Definition point_sizes : list R := [1.0; 2.0; 3.0]%R.

(** The branch [point_count > 50000]: vertex arrays. *)
Definition draw_arrays (pattern : PolarSpherePattern) (point_count : Z)
  : list gl_call :=
  [glEnableClientState GL_VERTEX_ARRAY;
   glEnableClientState GL_COLOR_ARRAY;
   glVertexPointer (points pattern);
   glColorPointer (colors pattern)]
  ++ flat_map (fun size => [glPointSize size; glDrawArrays 0 point_count])
              point_sizes
  ++ [glDisableClientState GL_VERTEX_ARRAY;
      glDisableClientState GL_COLOR_ARRAY].

(** One vertex of the immediate path; [time] is the value of
    [time.time()] read for this vertex. *)
Definition vertex (time : R) (ipc : Z * (vec3 * color4)) : list gl_call :=
  let '(i, ((x, y, z), (r, g, b, a))) := ipc in
  let time_factor := (time * 0.1)%R in
  let brightness := (0.8 + 0.2 * sin (IZR i * 0.01 + time_factor))%R in
  [glColor4f (r * brightness) (g * brightness) (b * brightness) a;
   glVertex3f x y z].

(** The [else] branch: immediate mode.  [now k i] is the clock read for
    vertex [i] in the pass of the [k]-th point size. *)
Definition draw_immediate (now : Z -> Z -> R) (pattern : PolarSpherePattern)
  : list gl_call :=
  flat_map
    (fun ks =>
       let '(k, size) := ks in
       [glPointSize size; glBegin]
       ++ flat_map (fun ipc => vertex (now k (fst ipc)) ipc)
                   (enumerate (combine (points pattern) (colors pattern)))
       ++ [glEnd])
    (enumerate point_sizes).

Definition render_overlay_effects (rotation : Q) : list gl_call :=
  [glPushMatrix; glColor4f 0.1 0.2 0.3 0.1]
  ++ flat_map
       (fun i =>
          [glPushMatrix;
           glRotatef (Q2R rotation + IZR (i * 120)) 0 1 0;
           glTranslatef 0.5 0 0;
           glScalef 0.3 0.3 0.3;
           gluSphere 1.0 20 20;
           glPopMatrix])
       (range 3)
  ++ [glPopMatrix].

(** [render_pattern]: the pattern after the frame (only a
    [ParticleSystem] changes) and the calls issued, or an exception from
    [update_physics]; the calls issued before such an exception are not
    kept. *)
Definition render_pattern (now : Z -> Z -> R) (rotation : Q)
           (pattern : PolarSpherePattern)
  : option (PolarSpherePattern * list gl_call) :=
  let head :=
    [glClear; glLoadIdentity; glTranslatef 0.0 0.0 (-3.0);
     glRotatef (Q2R rotation) 1 1 0;
     glRotatef (Q2R (rotation * 0.7)) 0 1 1;
     glRotatef (Q2R (rotation * 0.3)) 1 0 1] in
  pattern <- match cls pattern with
             | ClsParticleSystem =>
                 ParticleSystem.update_physics
                   ParticleSystem.default_dt pattern
             | _ => Some pattern
             end ;;
  let point_count := len (points pattern) in
  let draw :=
    if point_count >? threshold then draw_arrays pattern point_count
    else draw_immediate now pattern in
  Some (pattern,
        head ++ draw ++ render_overlay_effects rotation ++ [display_flip]).

(** The benchmark object ([__init__]). *)
Record t : Type := mk {
  width : Z;
  height : Z;
  fullscreen : bool;
  patterns : list PolarSpherePattern;
  result : BenchmarkResult.t;
  rotation : Q
}.

Definition init (stamp : string) (width height : Z) (fullscreen : bool) : t :=
  mk width height fullscreen
     (map construct
          [ClsFibonacciSphere; ClsPrimeSpiral; ClsMandelbrotSphere;
           ClsLorenzAttractor; ClsParticleSystem])
     (BenchmarkResult.init stamp) 0.

Definition set_patterns (self : t) (ps : list PolarSpherePattern) : t :=
  mk (width self) (height self) (fullscreen self) ps (result self)
     (rotation self).

Definition set_result (self : t) (r : BenchmarkResult.t) : t :=
  mk (width self) (height self) (fullscreen self) (patterns self) r
     (rotation self).

Definition set_rotation (self : t) (a : Q) : t :=
  mk (width self) (height self) (fullscreen self) (patterns self)
     (result self) a.

(** What lies outside the process: the files written, the calls received
    by the graphics context, and whether pygame is initialised. *)
Record world : Type := mkWorld {
  files : BenchmarkResult.file_system;
  display : list gl_call;
  pygame_up : bool
}.

Definition set_files (w : world) (fs : BenchmarkResult.file_system) :=
  mkWorld fs (display w) (pygame_up w).

Definition send (w : world) (calls : list gl_call) :=
  mkWorld (files w) (display w ++ calls) (pygame_up w).

Definition set_pygame (w : world) (up : bool) :=
  mkWorld (files w) (display w) up.

(** *** The environment of a run

    One pass through the render loop starts by reading the clock for the
    loop test, then polls the events, then renders. *)
Inductive happening : Type :=
  | Quit
    (** [pygame.event.get()] delivers a [QUIT] event *)
  | Frame (render_time : Q) (now : Z -> Z -> R)
    (** no [QUIT]; the frame is rendered in [render_time] seconds, with
        [now] the clock read per vertex *)
  | Failure
    (** no [QUIT]; a call of the graphics context raises *).

Record pass : Type := mkPass {
  since_start : Q;   (** [time.time() - start_time] at the loop test *)
  what : happening
}.

(** The environment of one (pattern, density) test.  [passes] lists the
    loop tests for which the environment has something to say; after the
    last of them the clock has passed the test duration. *)
Record test_env : Type := mkTest {
  gen_clock : Z -> R;     (** the clock seen by [generate] *)
  passes : list pass;
  elapsed : Q             (** [time.time() - start_time] after the loop *)
}.

Record environment : Type := mkEnv {
  setup_fails : bool;     (** [init_pygame] raises *)
  gpu_vendor : string;
  gpu_renderer : string;
  opengl_version : string;
  test : nat -> nat -> test_env;
    (** by position of the pattern in [self.patterns] and of the density
        in [densities] *)
  file_stamp : string     (** [datetime.now().strftime(...)] at saving *)
}.

(** The state threaded through the driver. *)
Record state : Type := mkState {
  self : t;
  outside : world
}.

(** How a block of the driver ends: with a value, or with an exception
    that propagates. *)
Inductive ending (A : Type) : Type :=
  | Returns (a : A) (st : state)
  | Raises (st : state).
Arguments Returns {A} a st.
Arguments Raises {A} st.

(** The local variables of the render loop. *)
Record loop_vars : Type := mkLoop {
  pattern_now : PolarSpherePattern;
  frames : Z;
  total_render_time : Q
}.

Inductive loop_exit : Type :=
  | TimeUp (v : loop_vars) (st : state)
  | QuitSeen (v : loop_vars) (st : state)
  | Raised (v : loop_vars) (st : state).

(** [a < b] on floats. *)
Definition Qltb (a b : Q) : bool := negb (Qle_bool b a).

(** The [while] loop of [benchmark_pattern]. *)
Fixpoint render_loop (duration_per_test : Q) (ps : list pass)
         (v : loop_vars) (st : state) : loop_exit :=
  match ps with
  | [] => TimeUp v st
  | p :: rest =>
      if Qltb (since_start p) duration_per_test then
        match what p with
        | Quit => QuitSeen v st
        | Failure => Raised v st
        | Frame render_time now =>
            match render_pattern now (rotation (self st)) (pattern_now v) with
            | None => Raised v st
            | Some (pattern, calls) =>
                render_loop duration_per_test rest
                  (mkLoop pattern (frames v + 1)
                          (total_render_time v + render_time)%Q)
                  (mkState
                     (set_rotation (self st) (rotation (self st) + 1.0)%Q)
                     (send (outside st) calls))
            end
        end
      else TimeUp v st
  end.

Definition record_result (st : state) (pattern_name : string) (density : Q)
           (points : Z) (fps render_time : Q) : state :=
  mkState
    (set_result (self st)
       (BenchmarkResult.add_result (result (self st)) pattern_name density
                                   points fps render_time))
    (outside st).

(** [benchmark_pattern]: the loop over [densities]; [k] is the position of
    the current density.  The value returned is the [bool] of the source
    together with the pattern object as the call leaves it. *)
Fixpoint benchmark_pattern (tests : nat -> test_env) (k : nat)
         (pattern : PolarSpherePattern) (densities : list Q)
         (duration_per_test : Q) (st : state)
  : ending (bool * PolarSpherePattern) :=
  match densities with
  | [] => Returns (true, pattern) st
  | density :: rest =>
      let env := tests k in
      let pattern := generate (gen_clock env) pattern density in
      let point_count := get_point_count pattern in
      if point_count =? 0 then
        benchmark_pattern tests (S k) pattern rest duration_per_test st
      else
        match render_loop duration_per_test (passes env)
                          (mkLoop pattern 0 0) st with
        | QuitSeen v st => Returns (false, pattern_now v) st
        | Raised _ st => Raises st
        | TimeUp v st =>
            let fps :=
              if Qltb 0 (elapsed env)
              then (inject_Z (frames v) / elapsed env)%Q else 0%Q in
            let avg_render_time :=
              if frames v >? 0
              then (total_render_time v / inject_Z (frames v))%Q else 0%Q in
            let st := record_result st (name pattern) density point_count
                                    fps avg_render_time in
            benchmark_pattern tests (S k) (pattern_now v) rest
                              duration_per_test st
        end
  end.

(** [d[key] = value] on [system_info]. *)
Fixpoint info_set (d : list (string * string)) (key value : string)
  : list (string * string) :=
  match d with
  | [] => [(key, value)]
  | (k, v) :: rest =>
      if String.eqb k key then (k, value) :: rest
      else (k, v) :: info_set rest key value
  end.

(** [init_pygame] with [init_opengl]: raises when the context cannot be
    created, else stores the three driver strings. *)
Definition init_pygame (env : environment) (st : state) : ending unit :=
  if setup_fails env then Raises st
  else
    let r := result (self st) in
    let info := BenchmarkResult.system_info r in
    let info := info_set info "gpu_vendor" (gpu_vendor env) in
    let info := info_set info "gpu_renderer" (gpu_renderer env) in
    let info := info_set info "opengl_version" (opengl_version env) in
    Returns tt
      (mkState
         (set_result (self st)
            (BenchmarkResult.mk (BenchmarkResult.pattern_results r) info
                                (BenchmarkResult.timestamp r)))
         (set_pygame (outside st) true)).

(** The loop [for pattern in self.patterns] of [run_benchmark]; [k] is
    the position of the current pattern.  The value tells how the loop
    was left: [true] when it ran through all the patterns, [false] when
    it was left by [break]. *)
Fixpoint sweep (env : environment) (k : nat)
         (todo : list PolarSpherePattern) (densities : list Q)
         (duration : Q) (st : state) : ending bool :=
  match todo with
  | [] => Returns true st
  | pattern :: rest =>
      match benchmark_pattern (test env k) O pattern densities duration st
      with
      | Raises st => Raises st
      | Returns (finished, pattern) st =>
          let st :=
            mkState
              (set_patterns (self st) (store (patterns (self st)) k pattern))
              (outside st) in
          if finished then sweep env (S k) rest densities duration st
          else Returns false st
      end
  end.

(** The file name built from the time of saving. *)
Definition result_filename (env : environment) : string :=
  ("opengl_benchmark_" ++ file_stamp env ++ ".json")%string.

(** The [try] block of [run_benchmark]. *)
Definition run_body (env : environment) (densities : list Q) (duration : Q)
           (st : state) : ending unit :=
  match init_pygame env st with
  | Raises st => Raises st
  | Returns _ st =>
      match sweep env O (patterns (self st)) densities duration st with
      | Raises st => Raises st
      | Returns _ st =>
          Returns tt
            (mkState (self st)
               (set_files (outside st)
                  (BenchmarkResult.save_to_file
                     (result (self st)) (result_filename env)
                     (files (outside st)))))
      end
  end.

(** [run_benchmark]: [except Exception] turns an exception into [False];
    [finally] calls [pygame.quit()] on both ways out. *)
Definition run_benchmark (env : environment) (densities : list Q)
           (duration : Q) (st : state) : bool * state :=
  let quit st := mkState (self st) (set_pygame (outside st) false) in
  match run_body env densities duration st with
  | Returns _ st => (true, quit st)
  | Raises st => (false, quit st)
  end.

Definition default_densities : list Q := [0.5; 1.0; 2.0; 4.0; 8.0]%Q.

(** The parsed command line. *)
Record arguments : Type := mkArgs {
  arg_width : Z;
  arg_height : Z;
  arg_fullscreen : bool;
  arg_duration : Q;
  arg_densities : list Q;
  arg_pattern : option pattern_class
}.

Definition default_arguments : arguments :=
  mkArgs 1920 1080 false 3.0%Q default_densities None.

(** The benchmark object that [main] builds from the command line: all five
    patterns, or the one selected by [--pattern].  [stamp] is the creation
    time of the [BenchmarkResult]. *)
Definition configure (stamp : string) (args : arguments) : t :=
  let benchmark :=
    init stamp (arg_width args) (arg_height args) (arg_fullscreen args) in
  match arg_pattern args with
  | Some c => set_patterns benchmark [construct c]
  | None => benchmark
  end.

(** [main]: the exit status given to [sys.exit] and the final state. *)
Definition main (env : environment) (stamp : string) (args : arguments)
           (w : world) : Z * state :=
  let benchmark := configure stamp args in
  let '(success, st) :=
    run_benchmark env (arg_densities args) (arg_duration args)
                  (mkState benchmark w) in
  (if success then 0 else 1, st).

End OpenGLBenchmark.

(** * Vocabulary of the properties *)

Import OpenGLBenchmark.


(** A position is on the unit sphere. *)
Definition on_unit_sphere (p : vec3) : Prop := norm p = 1%R.



Definition is_array_draw (c : gl_call) : bool :=
  match c with glDrawArrays _ _ => true | _ => false end.

Definition is_begin (c : gl_call) : bool :=
  match c with glBegin => true | _ => false end.

(** The frame was drawn from vertex arrays: some [glDrawArrays] call. *)
Definition batched_path (calls : list gl_call) : bool :=
  existsb is_array_draw calls.

(** The frame was drawn point by point: some [glBegin] block. *)
Definition immediate_path (calls : list gl_call) : bool :=
  existsb is_begin calls.

(** The draw calls of a frame: the [glDrawArrays] calls and the [glBegin]
    blocks. *)
Definition draw_calls (calls : list gl_call) : list gl_call :=
  filter (fun c => is_array_draw c || is_begin c) calls.

(** The point sizes set during a frame, in order. *)
Definition point_sizes_of (calls : list gl_call) : list R :=
  flat_map (fun c => match c with glPointSize s => [s] | _ => [] end) calls.

(** The line that [get_summary] writes for one key of [pattern_results]. *)
Definition summary_of (kv : string * list BenchmarkResult.entry)
  : list BenchmarkResult.summary_line :=
  match snd kv with
  | [] => []
  | r :: rest =>
      [BenchmarkResult.mkLine (fst kv)
         (BenchmarkResult.py_max BenchmarkResult.Qgtb
            (BenchmarkResult.fps r) (map BenchmarkResult.fps rest))
         (BenchmarkResult.py_max Z.gtb
            (BenchmarkResult.point_count r)
            (map BenchmarkResult.point_count rest))]
  end.

(** The state in which a block of the driver ends. *)
Definition final_state {A : Type} (e : ending A) : state :=
  match e with
  | Returns _ st => st
  | Raises st => st
  end.

Definition exit_state (x : loop_exit) : state :=
  match x with
  | TimeUp _ st => st
  | QuitSeen _ st => st
  | Raised _ st => st
  end.

(** A run of [--pattern fibonacci --densities 0.001 0.002]: the first test
    renders one frame and ends after 3 seconds; in the second test the first
    frame raises. *)
Definition crash_env : environment :=
  mkEnv false "vendor" "renderer" "version"
        (fun _ j =>
           match j with
           | O => mkTest (fun _ => 0%R)
                         [mkPass 0 (Frame 0.01 (fun _ _ => 0%R))] 3.0
           | S _ => mkTest (fun _ => 0%R) [mkPass 0 Failure] 0.5
           end)
        "20240101_000000".

Definition crash_args : arguments :=
  mkArgs 1920 1080 false 3.0 [0.001; 0.002]%Q (Some ClsFibonacciSphere).

Definition empty_world : world := mkWorld [] [] false.

(** A run of all five patterns at [--densities 0.001 0.002]: the first test
    renders one frame and ends after 3 seconds; in the second test the
    window is closed before the first frame. *)
Definition quit_env : environment :=
  mkEnv false "vendor" "renderer" "version"
        (fun _ j =>
           match j with
           | O => mkTest (fun _ => 0%R)
                         [mkPass 0 (Frame 0.01 (fun _ _ => 0%R))] 3.0
           | S _ => mkTest (fun _ => 0%R) [mkPass 0 Quit] 0.5
           end)
        "20240101_000000".

Definition quit_args : arguments :=
  mkArgs 1920 1080 false 3.0 [0.001; 0.002]%Q None.

(** The state of that run once [init_pygame] has returned. *)
Definition quit_ready : state :=
  mkState
    (set_result (configure "t" quit_args)
       (BenchmarkResult.mk []
          [("gpu_vendor", "vendor"); ("gpu_renderer", "renderer");
           ("opengl_version", "version")]%string "t"))
    (set_pygame empty_world true).

(** A particle field as [ParticleSystem] means it: one velocity and one
    mass per position, and no mass equal to zero. *)
Definition well_formed (self : PolarSpherePattern)
           (vs : list vec3) (ms : list R) : Prop :=
  velocities self = Some vs /\ masses self = Some ms
  /\ List.length vs = List.length (points self)
  /\ List.length ms = List.length (points self)
  /\ Forall (fun m => m <> 0%R) ms.

(** Two particles of mass 1 at rest, on the [x] and the [y] axis. *)
Definition two_particles : PolarSpherePattern :=
  mkPattern ClsParticleSystem "Particle System" "two particles at rest"
            [(1, 0, 0); (0, 1, 0)]%R
            [(0.5, 0, 0.5, 0.8); (0.5, 0, 0.5, 0.8)]%R
            (Some [(0, 0, 0); (0, 0, 0)]%R)
            (Some [1; 1]%R).

(** A particle field of [n] particles: positions on the unit sphere,
    velocity components in [-0.01, 0.01), masses in [0.5, 2.0), and four
    sequences of length [n]. *)
Definition particle_field_of (n : nat) (p : PolarSpherePattern) : Prop :=
  exists vs ms,
    velocities p = Some vs /\ masses p = Some ms
    /\ List.length (points p) = n /\ List.length (colors p) = n
    /\ List.length vs = n /\ List.length ms = n
    /\ Forall on_unit_sphere (points p)
    /\ Forall (fun v : vec3 =>
                 let '(vx, vy, vz) := v in
                 (-0.01 <= vx < 0.01 /\ -0.01 <= vy < 0.01
                  /\ -0.01 <= vz < 0.01)%R) vs
    /\ Forall (fun m => (0.5 <= m < 2.0)%R) ms.

(** ** Vocabulary of the further properties *)

(** The orbit of 0 under [z -> z*z + c]: the value of [z] when the loop of
    [mandelbrot_iterations] starts its [n]-th pass. *)
Fixpoint orbit (c : MandelbrotSphere.complex) (n : nat)
  : MandelbrotSphere.complex :=
  match n with
  | O => (0, 0)%Q
  | S n' =>
      MandelbrotSphere.cadd
        (MandelbrotSphere.cmul (orbit c n') (orbit c n')) c
  end.

(** Positions and colours are paired index by index. *)
Definition paired (s : PolarSpherePattern) : Prop :=
  List.length (points s) = List.length (colors s).

(** Two states of an object that differ at most in [points] and
    [colors]. *)
Definition same_identity (a b : PolarSpherePattern) : Prop :=
  cls a = cls b /\ name a = name b /\ description a = description b
  /\ velocities a = velocities b /\ masses a = masses b.

(** The position that the loop of [FibonacciSphere.generate] computes for
    index [i] of [n_points]. *)
Definition fibonacci_point (n_points i : Z) : vec3 :=
  let theta := (2 * PI * IZR i / FibonacciSphere.golden_ratio)%R in
  let phi := acos (1 - IZR (2 * i)%Z / IZR n_points)%R in
  ((sin phi * cos theta)%R, (sin phi * sin theta)%R, cos phi).

(** A colour whose four channels lie in [0, 1]. *)
Definition valid_color (c : color4) : Prop :=
  let '(r, g, b, a) := c in
  (0 <= r <= 1 /\ 0 <= g <= 1 /\ 0 <= b <= 1 /\ 0 <= a <= 1)%R.

(** The invariant of [pattern_results]: the keys are distinct and no key
    holds an empty list. *)
Definition well_kept (d : BenchmarkResult.results) : Prop :=
  NoDup (map fst d) /\ Forall (fun kv => snd kv <> []) d.

(** The sum of the vectors of a list, coordinate by coordinate. *)
Definition vec_add (u v : vec3) : vec3 :=
  let '(a, b, c) := u in
  let '(x, y, z) := v in ((a + x)%R, (b + y)%R, (c + z)%R).

Definition vec_sum (l : list vec3) : vec3 :=
  fold_right vec_add (0, 0, 0)%R l.

(** The points submitted one by one during a frame: the [glVertex3f]
    calls. *)
Definition is_vertex (c : gl_call) : bool :=
  match c with glVertex3f _ _ _ => true | _ => false end.

Definition vertex_calls (calls : list gl_call) : nat :=
  List.length (filter is_vertex calls).

(** The local variables with which the render loop is left. *)
Definition exit_vars (x : loop_exit) : loop_vars :=
  match x with
  | TimeUp v _ => v
  | QuitSeen v _ => v
  | Raised v _ => v
  end.

(** A record that a test can produce: at least one point, and a frame rate
    that is not negative. *)
Definition sound_entry (e : BenchmarkResult.entry) : Prop :=
  1 <= BenchmarkResult.point_count e /\ (0 <= BenchmarkResult.fps e)%Q.

Definition sound_store (r : BenchmarkResult.t) : Prop :=
  Forall (fun kv => Forall sound_entry (snd kv))
         (BenchmarkResult.pattern_results r).


(** The records stored for a pattern name (none when the name is not a
    key). *)
Definition records_of (r : BenchmarkResult.t) (pattern_name : string)
  : list BenchmarkResult.entry :=
  match BenchmarkResult.lookup (BenchmarkResult.pattern_results r)
                               pattern_name with
  | Some l => l
  | None => []
  end.

(** [l1] is [l2] with some elements left out, the order kept. *)
Inductive subsequence {A : Type} : list A -> list A -> Prop :=
  | subsequence_nil : forall l, subsequence [] l
  | subsequence_skip : forall a l1 l2,
      subsequence l1 l2 -> subsequence l1 (a :: l2)
  | subsequence_take : forall a l1 l2,
      subsequence l1 l2 -> subsequence (a :: l1) (a :: l2).

(** The bracketing of a sequence of OpenGL calls, followed as OpenGL does:
    the depth of the matrix stack above its depth at the start, and whether
    a [glBegin] is open.  A call out of place gives [None]: a
    [glPopMatrix] that would go below the starting depth, a [glBegin]
    inside a [glBegin], a [glEnd] without one, and between [glBegin] and
    [glEnd] any call other than [glColor4f] and [glVertex3f]. *)
Definition bracket_step (s : nat * bool) (c : gl_call) : option (nat * bool) :=
  let '(depth, open) := s in
  match c with
  | glColor4f _ _ _ _ | glVertex3f _ _ _ => Some s
  | glBegin => if open then None else Some (depth, true)
  | glEnd => if open then Some (depth, false) else None
  | glPushMatrix => if open then None else Some (S depth, false)
  | glPopMatrix =>
      if open then None
      else match depth with
           | O => None
           | S d => Some (d, false)
           end
  | _ => if open then None else Some s
  end.

Fixpoint brackets (s : nat * bool) (calls : list gl_call)
  : option (nat * bool) :=
  match calls with
  | [] => Some s
  | c :: rest => s' <- bracket_step s c ;; brackets s' rest
  end.

(** The names under which the five pattern classes present themselves;
    [LorenzAttractor] and [ParticleSystem] share theirs. *)
Definition pattern_names : list string :=
  ["Fibonacci Sphere"; "Prime Spiral"; "Mandelbrot Sphere";
   "Lorenz Attractor"]%string.

(** * Properties *)

Lemma py_range_length (a b : Z) : List.length (py_range a b) = Z.to_nat (b - a).
Proof. unfold py_range. now rewrite length_map, length_seq. Qed.

(** A loop whose body leaves the state alone leaves it alone. *)
Lemma fold_left_unchanged {S A : Type} (f : S -> A -> S) (l : list A) (s : S) :
  (forall s' a, f s' a = s') -> fold_left f l s = s.
Proof.
  intros Hf. induction l as [|a l IH]; simpl; [reflexivity|].
  now rewrite Hf.
Qed.

(** ** MandelbrotSphere with [max_iter = 0] *)

Lemma mandelbrot_iterations_zero (c : MandelbrotSphere.complex) :
  MandelbrotSphere.mandelbrot_iterations c 0 = 0.
Proof. reflexivity. Qed.

Lemma cell_without_iterations resolution layer i self j :
  MandelbrotSphere.cell resolution 0 layer i self j = self.
Proof.
  unfold MandelbrotSphere.cell.
  now rewrite mandelbrot_iterations_zero.
Qed.

(** C10.  For every density [d] with [int(d * 50) = 0], the escape count is
    0 for every sample, no grid cell passes the test
    [iterations < max_iter], and [MandelbrotSphere.generate] leaves both
    [points] and [colors] empty. *)
Theorem mandelbrot_empty_without_iterations
        (self : PolarSpherePattern) (d : Q) :
  py_int (d * 50) = 0 ->
  (forall c, MandelbrotSphere.mandelbrot_iterations c (py_int (d * 50)) = 0)
  /\ (forall c, (MandelbrotSphere.mandelbrot_iterations c (py_int (d * 50))
                 <? py_int (d * 50)) = false)
  /\ points (MandelbrotSphere.generate self d) = []
  /\ colors (MandelbrotSphere.generate self d) = [].
Proof.
  intros Hzero. unfold MandelbrotSphere.generate. rewrite Hzero.
  assert (Hgen : forall s,
             fold_left (MandelbrotSphere.sheet (py_int (d * 100)) 0)
                       (range MandelbrotSphere.layers) s = s).
  { intros s. apply fold_left_unchanged. intros s1 layer.
    unfold MandelbrotSphere.sheet. apply fold_left_unchanged. intros s2 i.
    unfold MandelbrotSphere.row. apply fold_left_unchanged. intros s3 j.
    apply cell_without_iterations. }
  rewrite Hgen. repeat split; intros; reflexivity.
Qed.

Lemma mandelbrot_empty_without_iterations_witness :
  py_int (0.01 * 50) = 0
  /\ points (MandelbrotSphere.generate MandelbrotSphere.init 0.01) = []
  /\ colors (MandelbrotSphere.generate MandelbrotSphere.init 0.01) = [].
Proof.
  split; [reflexivity|].
  apply (mandelbrot_empty_without_iterations MandelbrotSphere.init 0.01).
  reflexivity.
Defined.

(** Every density in [0, 0.02) has [int(d * 50) = 0]. *)
Lemma small_density_no_iterations (d : Q) :
  (0 <= d)%Q -> (d < 0.02)%Q -> py_int (d * 50) = 0.
Proof.
  intros H0 H1. unfold py_int.
  assert (Hnn : (0 <= d * 50)%Q).
  { apply Qmult_le_0_compat; [assumption | discriminate]. }
  destruct (Qle_bool 0 (d * 50)) eqn:E.
  - assert (Hlt : (d * 50 < 1)%Q).
    { clear E Hnn. destruct d as [n m]. unfold Qlt, Qmult, Qle in *.
      cbn [Qnum Qden] in *. rewrite Pos.mul_1_r. lia. }
    assert (Hlo := Qfloor_le (d * 50)).
    assert (Hhi := Qlt_floor (d * 50)).
    assert (Hflo : (0 <= Qfloor (d * 50))%Z).
    { change 0%Z with (Qfloor 0). now apply Qfloor_resp_le. }
    assert (H2 : (inject_Z (Qfloor (d * 50)) < 1)%Q).
    { eapply Qle_lt_trans; eassumption. }
    unfold Qlt, inject_Z in H2. cbn [Qnum Qden] in H2. lia.
  - apply Qle_bool_iff in Hnn. congruence.
Qed.

(** ** Loops *)

Lemma fold_left_invariant {S A : Type} (P : S -> Prop) (f : S -> A -> S)
      (l : list A) (s : S) :
  P s -> (forall s' a, In a l -> P s' -> P (f s' a)) -> P (fold_left f l s).
Proof.
  revert s. induction l as [|a l IH]; intros s Hs Hf; simpl; [assumption|].
  apply IH.
  - apply Hf; [now left | assumption].
  - intros s' b Hb. apply Hf. now right.
Qed.

(** A loop that appends one point per iteration. *)
Lemma fold_left_counts {S A : Type} (size : S -> nat) (f : S -> A -> S)
      (l : list A) (s : S) :
  (forall s' a, size (f s' a) = Datatypes.S (size s')) ->
  size (fold_left f l s) = (List.length l + size s)%nat.
Proof.
  intros Hf. revert s. induction l as [|a l IH]; intros s; simpl.
  - reflexivity.
  - rewrite IH, Hf. lia.
Qed.

Lemma range_length (n : Z) : List.length (range n) = Z.to_nat n.
Proof. unfold range. rewrite py_range_length. f_equal. lia. Qed.

Lemma in_py_range (a b i : Z) : In i (py_range a b) <-> a <= i < b.
Proof.
  unfold py_range. rewrite in_map_iff. split.
  - intros [k [<- Hk]]. apply in_seq in Hk. lia.
  - intros Hi. exists (Z.to_nat (i - a)). split; [lia|].
    apply in_seq. lia.
Qed.

Lemma py_range_NoDup (a b : Z) : NoDup (py_range a b).
Proof.
  unfold py_range. apply Injective_map_NoDup.
  - intros x y Hxy. lia.
  - apply seq_NoDup.
Qed.


(** ** In-place update of a list *)

Section InPlaceUpdate.

Context {A : Type}.

Lemma store_length (l : list A) (k : nat) (v : A) :
  List.length (store l k v) = List.length l.
Proof.
  revert k. induction l as [|a l IH]; intros [|k]; simpl; auto.
Qed.

Lemma store_same (l : list A) (k : nat) (v : A) :
  (k < List.length l)%nat -> nth_error (store l k v) k = Some v.
Proof.
  revert k. induction l as [|a l IH]; intros [|k] Hk; simpl in *; try lia.
  - reflexivity.
  - apply IH. lia.
Qed.

Lemma store_other (l : list A) (k k' : nat) (v : A) :
  k <> k' -> nth_error (store l k v) k' = nth_error l k'.
Proof.
  revert k k'. induction l as [|a l IH]; intros [|k] [|k'] Hk; simpl;
    try reflexivity; try congruence.
  apply IH. congruence.
Qed.


End InPlaceUpdate.

(** ** ParticleSystem.generate *)

Lemma particle_generate_resets (self : PolarSpherePattern) (d : Q) :
  ParticleSystem.generate self d = set_colors (set_points self []) [].
Proof.
  unfold ParticleSystem.generate. now apply fold_left_unchanged.
Qed.

(** C1, on the code.  At density 1.0 the claim asks for
    [int(1.0 * 5000) = 5000] particles; the [generate] in effect for
    [ParticleSystem] appends nothing, so the object built by
    [ParticleSystem()] has no point and no colour after the call, and its
    attributes [velocities] and [masses] do not exist. *)
Theorem particle_generate_appends_nothing :
  py_int (1.0 * 5000) = 5000
  /\ get_point_count (ParticleSystem.generate ParticleSystem.init 1.0) = 0
  /\ colors (ParticleSystem.generate ParticleSystem.init 1.0) = []
  /\ velocities (ParticleSystem.generate ParticleSystem.init 1.0) = None
  /\ masses (ParticleSystem.generate ParticleSystem.init 1.0) = None.
Proof.
  rewrite particle_generate_resets. repeat split.
Qed.

(** ** Point counts of FibonacciSphere and PrimeSpiral *)

Lemma fibonacci_body_points now n s i :
  List.length (points (FibonacciSphere.body now n s i))
  = S (List.length (points s)).
Proof.
  unfold FibonacciSphere.body, append_color, append_point. simpl.
  rewrite length_app. simpl. lia.
Qed.

Lemma fibonacci_body_colors now n s i :
  List.length (colors (FibonacciSphere.body now n s i))
  = S (List.length (colors s)).
Proof.
  unfold FibonacciSphere.body, append_color, append_point. simpl.
  rewrite length_app. simpl. lia.
Qed.

Lemma fibonacci_count now self d :
  List.length (points (FibonacciSphere.generate now self d))
  = Z.to_nat (py_int (d * 10000))
  /\ List.length (colors (FibonacciSphere.generate now self d))
     = Z.to_nat (py_int (d * 10000)).
Proof.
  unfold FibonacciSphere.generate. split.
  - rewrite (fold_left_counts (fun s => List.length (points s))).
    + rewrite range_length. simpl. lia.
    + intros. apply fibonacci_body_points.
  - rewrite (fold_left_counts (fun s => List.length (colors s))).
    + rewrite range_length. simpl. lia.
    + intros. apply fibonacci_body_colors.
Qed.

Lemma no_divisor_spec (n : Z) (l : list Z) :
  PrimeSpiral.no_divisor n l = true <-> forall i, In i l -> n mod i <> 0.
Proof.
  induction l as [|a l IH]; simpl.
  - split; [intros _ i [] | reflexivity].
  - destruct (n mod a =? 0) eqn:E.
    + apply Z.eqb_eq in E. split; [discriminate|].
      intros H. exfalso. apply (H a); [now left | assumption].
    + apply Z.eqb_neq in E. rewrite IH. split.
      * intros H i [<- | Hi]; [assumption | now apply H].
      * intros H i Hi. apply H. now right.
Qed.

(** Trial division up to the integer square root decides primality. *)
Lemma trial_division_prime (n : Z) :
  2 <= n ->
  PrimeSpiral.no_divisor n (py_range 2 (Z.sqrt n + 1)) = true <-> prime n.
Proof.
  intros Hn. rewrite no_divisor_spec, <- prime_alt.
  assert (Hs := Z.sqrt_spec n ltac:(lia)). cbv zeta in Hs.
  assert (Hs0 : 0 <= Z.sqrt n) by apply Z.sqrt_nonneg.
  split.
  - intros Hno. split; [lia|]. intros k Hk [q Hq].
    assert (Hq1 : 1 < q) by nia.
    destruct (Z_le_gt_dec k (Z.sqrt n)) as [Hle | Hgt].
    + apply (Hno k); [apply in_py_range; lia|].
      apply Z.mod_divide; [lia | now exists q].
    + apply (Hno q).
      * apply in_py_range. split; [lia|].
        destruct (Z_le_gt_dec q (Z.sqrt n)); [lia | nia].
      * apply Z.mod_divide; [lia|]. exists k. lia.
  - intros [_ Hp] i Hi Hmod. apply in_py_range in Hi.
    apply (Hp i); [nia|]. apply Z.mod_divide; [lia | assumption].
Qed.

Lemma collect_filter (l acc : list Z) :
  fold_left PrimeSpiral.collect l acc
  = acc ++ filter (fun n => PrimeSpiral.no_divisor
                              n (py_range 2 (Z.sqrt n + 1))) l.
Proof.
  revert acc. induction l as [|n l IH]; intros acc; simpl.
  - now rewrite app_nil_r.
  - rewrite IH. unfold PrimeSpiral.collect.
    destruct (PrimeSpiral.no_divisor n _); [|reflexivity].
    now rewrite <- app_assoc.
Qed.

Lemma primes_upto_spec (m p : Z) :
  In p (PrimeSpiral.primes_upto m) <-> prime p /\ p < m.
Proof.
  unfold PrimeSpiral.primes_upto. rewrite collect_filter. simpl.
  rewrite filter_In, in_py_range. split.
  - intros [Hr Ht]. split; [|lia]. apply trial_division_prime; [lia | exact Ht].
  - intros [Hp Hm].
    assert (H2 : 2 <= p) by (apply prime_alt in Hp; destruct Hp; lia).
    split; [lia|]. apply trial_division_prime; [lia | exact Hp].
Qed.


Lemma enumerate_length {A : Type} (l : list A) :
  List.length (enumerate l) = List.length l.
Proof.
  unfold enumerate, len. rewrite length_combine, range_length. lia.
Qed.






(** ** Positions and the unit sphere *)

(** Spherical coordinates give a unit vector. *)
Lemma spherical_unit (phi theta : R) :
  on_unit_sphere ((sin phi * cos theta)%R, (sin phi * sin theta)%R, cos phi).
Proof.
  unfold on_unit_sphere, norm.
  assert (H1 := sin2_cos2 phi). assert (H2 := sin2_cos2 theta).
  unfold Rsqr in H1, H2.
  replace (sin phi * cos theta * (sin phi * cos theta)
           + sin phi * sin theta * (sin phi * sin theta)
           + cos phi * cos phi)%R
    with (sin phi * sin phi * (sin theta * sin theta + cos theta * cos theta)
          + cos phi * cos phi)%R by ring.
  rewrite H2, Rmult_1_r, H1. apply sqrt_1.
Qed.

(** A vector divided by its positive length is a unit vector. *)
Lemma normalised_unit (a b c : R) :
  let m := sqrt (a ^ 2 + b ^ 2 + c ^ 2) in
  (0 < m)%R -> on_unit_sphere ((a / m)%R, (b / m)%R, (c / m)%R).
Proof.
  intros m Hm. unfold on_unit_sphere, norm.
  assert (Hsq : (m * m = a ^ 2 + b ^ 2 + c ^ 2)%R).
  { apply sqrt_sqrt. nra. }
  replace (a / m * (a / m) + b / m * (b / m) + c / m * (c / m))%R with 1%R.
  - apply sqrt_1.
  - field_simplify_eq; [|lra]. lra.
Qed.






Lemma py_range_cons (a b : Z) :
  a < b -> py_range a b = a :: py_range (a + 1) b.
Proof.
  intros Hab. unfold py_range.
  replace (Z.to_nat (b - a)) with (S (Z.to_nat (b - (a + 1)))) by lia.
  simpl. f_equal; [lia|].
  rewrite <- seq_shift, map_map. apply map_ext. intros k. lia.
Qed.






(** ** The render path *)

Lemma vertices_neutral (now : Z -> R) (l : list (Z * (vec3 * color4))) :
  existsb is_array_draw (flat_map (fun ipc => vertex (now (fst ipc)) ipc) l)
  = false
  /\ existsb is_begin (flat_map (fun ipc => vertex (now (fst ipc)) ipc) l)
     = false
  /\ point_sizes_of (flat_map (fun ipc => vertex (now (fst ipc)) ipc) l) = []
  /\ draw_calls (flat_map (fun ipc => vertex (now (fst ipc)) ipc) l) = [].
Proof.
  induction l as [|[i [[[x y] z] [[[r g] b] a]]] l [IH1 [IH2 [IH3 IH4]]]].
  - repeat split.
  - repeat split; simpl; assumption.
Qed.

Lemma draw_immediate_blocks now pattern :
  let vs k :=
    flat_map (fun ipc => vertex (now k (fst ipc)) ipc)
             (enumerate (combine (points pattern) (colors pattern))) in
  draw_immediate now pattern
  = ([glPointSize 1.0; glBegin] ++ vs 0 ++ [glEnd])
    ++ ([glPointSize 2.0; glBegin] ++ vs 1 ++ [glEnd])
    ++ ([glPointSize 3.0; glBegin] ++ vs 2 ++ [glEnd]) ++ [].
Proof. reflexivity. Qed.

Lemma draw_immediate_measures now pattern :
  batched_path (draw_immediate now pattern) = false
  /\ immediate_path (draw_immediate now pattern) = true
  /\ point_sizes_of (draw_immediate now pattern) = [1.0; 2.0; 3.0]%R
  /\ List.length (draw_calls (draw_immediate now pattern)) = 3%nat.
Proof.
  rewrite draw_immediate_blocks. cbv zeta.
  set (l := enumerate (combine (points pattern) (colors pattern))).
  destruct (vertices_neutral (now 0) l) as [A0 [B0 [P0 D0]]].
  destruct (vertices_neutral (now 1) l) as [A1 [B1 [P1 D1]]].
  destruct (vertices_neutral (now 2) l) as [A2 [B2 [P2 D2]]].
  unfold batched_path, immediate_path, point_sizes_of, draw_calls in *.
  repeat rewrite ?existsb_app, ?flat_map_app, ?filter_app.
  rewrite A0, A1, A2, P0, P1, P2, D0, D1, D2.
  repeat split.
Qed.

Lemma draw_arrays_measures pattern n :
  batched_path (draw_arrays pattern n) = true
  /\ immediate_path (draw_arrays pattern n) = false
  /\ point_sizes_of (draw_arrays pattern n) = [1.0; 2.0; 3.0]%R
  /\ List.length (draw_calls (draw_arrays pattern n)) = 3%nat.
Proof. repeat split. Qed.

Lemma frame_measures now rotation pattern pattern' calls :
  render_pattern now rotation pattern = Some (pattern', calls) ->
  exists draw,
    draw = (if len (points pattern') >? threshold
            then draw_arrays pattern' (len (points pattern'))
            else draw_immediate now pattern')
    /\ batched_path calls = batched_path draw
    /\ immediate_path calls = immediate_path draw
    /\ point_sizes_of calls = point_sizes_of draw
    /\ draw_calls calls = draw_calls draw.
Proof.
  unfold render_pattern. intros H.
  destruct (match cls pattern with
            | ClsParticleSystem =>
                ParticleSystem.update_physics ParticleSystem.default_dt pattern
            | _ => Some pattern
            end) as [p|]; [|discriminate].
  unfold bind in H. injection H as <- <-.
  eexists. split; [reflexivity|].
  set (draw := if len (points p) >? threshold
               then draw_arrays p (len (points p))
               else draw_immediate now p).
  unfold batched_path, immediate_path, point_sizes_of, draw_calls.
  repeat split.
  - cbn [existsb is_array_draw orb]. rewrite existsb_app.
    cbn [existsb is_array_draw orb]. apply orb_false_r.
  - cbn [existsb is_begin orb]. rewrite existsb_app.
    cbn [existsb is_begin orb]. apply orb_false_r.
  - cbn [flat_map app]. rewrite flat_map_app. cbn [flat_map app].
    apply app_nil_r.
  - cbn [filter is_array_draw is_begin orb]. rewrite filter_app.
    cbn [filter is_array_draw is_begin orb]. apply app_nil_r.
Qed.

(** C5.  For every frame that [render_pattern] completes on a field of [N]
    points: the vertex-array path is taken if and only if [N > 50000], the
    per-point immediate path otherwise; [N = 50000] is drawn immediately and
    [N = 50001] from arrays; on both paths there are exactly three draw
    calls, at the point sizes 1.0, 2.0, 3.0 in this order. *)
Theorem render_path_selection
        (now : Z -> Z -> R) (rotation : Q)
        (pattern pattern' : PolarSpherePattern) (calls : list gl_call) :
  render_pattern now rotation pattern = Some (pattern', calls) ->
  let N := len (points pattern') in
  (batched_path calls = true <-> N > 50000)
  /\ (immediate_path calls = true <-> N <= 50000)
  /\ (N = 50000 -> immediate_path calls = true /\ batched_path calls = false)
  /\ (N = 50001 -> batched_path calls = true /\ immediate_path calls = false)
  /\ point_sizes_of calls = [1.0; 2.0; 3.0]%R
  /\ List.length (draw_calls calls) = 3%nat.
Proof.
  intros H N.
  destruct (frame_measures _ _ _ _ _ H) as [draw [Hd [Hb [Hi [Hs Hc]]]]].
  rewrite Hb, Hi, Hs, Hc. fold N in Hd. unfold threshold in Hd.
  destruct (N >? 50000) eqn:E.
  - assert (HN : N > 50000) by lia.
    destruct (draw_arrays_measures pattern' N) as [A [B [C D]]].
    subst draw. rewrite A, B, C, D.
    repeat split; try lia; try discriminate; try reflexivity.
  - assert (HN : N <= 50000) by lia.
    destruct (draw_immediate_measures now pattern') as [A [B [C D]]].
    subst draw. rewrite A, B, C, D.
    repeat split; try lia; try discriminate; try reflexivity.
Qed.

Lemma render_path_selection_witness :
  exists calls,
    render_pattern (fun _ _ => 0%R) 0 FibonacciSphere.init
    = Some (FibonacciSphere.init, calls)
    /\ immediate_path calls = true
    /\ point_sizes_of calls = [1.0; 2.0; 3.0]%R.
Proof.
  eexists. split; [reflexivity|].
  destruct (render_path_selection
              (fun _ _ => 0%R) 0 FibonacciSphere.init FibonacciSphere.init
              _ eq_refl) as [_ [Hi [_ [_ [Hs _]]]]].
  split; [apply Hi; discriminate | exact Hs].
Defined.

(** ** The summary *)

(** [max] returns an element of the sequence that no element exceeds. *)
Lemma py_max_spec {A : Type} (le : A -> A -> Prop) (gt : A -> A -> bool) :
  (forall a, le a a) ->
  (forall a b c, le a b -> le b c -> le a c) ->
  (forall a b, if gt a b then le b a else le a b) ->
  forall rest x,
    In (BenchmarkResult.py_max gt x rest) (x :: rest)
    /\ forall y, In y (x :: rest) -> le y (BenchmarkResult.py_max gt x rest).
Proof.
  intros Hrefl Htrans Hgt. unfold BenchmarkResult.py_max.
  induction rest as [|y rest IH]; intros x; simpl.
  - split; [now left|]. intros y [<- | []]. apply Hrefl.
  - destruct (IH (if gt y x then y else x)) as [Hin Hall].
    assert (Hx : le x (if gt y x then y else x)
                 /\ le y (if gt y x then y else x)).
    { specialize (Hgt y x). destruct (gt y x); split; auto. }
    destruct Hx as [Hx Hy]. split.
    + destruct Hin as [Hin | Hin]; [|now right; right].
      rewrite <- Hin. destruct (gt y x); [right; now left | now left].
    + intros z [<- | [<- | Hz]].
      * eapply Htrans; [exact Hx|]. apply Hall. now left.
      * eapply Htrans; [exact Hy|]. apply Hall. now left.
      * apply Hall. now right.
Qed.

Lemma max_fps_spec (x : Q) (rest : list Q) :
  In (BenchmarkResult.py_max BenchmarkResult.Qgtb x rest) (x :: rest)
  /\ forall y, In y (x :: rest) ->
               (y <= BenchmarkResult.py_max BenchmarkResult.Qgtb x rest)%Q.
Proof.
  apply (py_max_spec Qle).
  - apply Qle_refl.
  - apply Qle_trans.
  - intros a b. unfold BenchmarkResult.Qgtb.
    destruct (Qle_bool a b) eqn:E; simpl.
    + now apply Qle_bool_iff.
    + apply Qlt_le_weak, Qnot_le_lt. intros H.
      apply Qle_bool_iff in H. congruence.
Qed.

Lemma max_points_spec (x : Z) (rest : list Z) :
  In (BenchmarkResult.py_max Z.gtb x rest) (x :: rest)
  /\ forall y, In y (x :: rest) -> y <= BenchmarkResult.py_max Z.gtb x rest.
Proof.
  apply (py_max_spec Z.le).
  - apply Z.le_refl.
  - apply Z.le_trans.
  - intros a b. destruct (a >? b) eqn:E; lia.
Qed.

Lemma get_summary_lines (self : BenchmarkResult.t) :
  BenchmarkResult.get_summary self
  = flat_map summary_of (BenchmarkResult.pattern_results self).
Proof.
  unfold BenchmarkResult.get_summary.
  assert (H : forall d acc,
             fold_left
               (fun summary (kv : string * list BenchmarkResult.entry) =>
                  let '(pattern, rs) := kv in
                  match rs with
                  | [] => summary
                  | r :: rest =>
                      summary ++
                      [BenchmarkResult.mkLine pattern
                         (BenchmarkResult.py_max BenchmarkResult.Qgtb
                            (BenchmarkResult.fps r)
                            (map BenchmarkResult.fps rest))
                         (BenchmarkResult.py_max Z.gtb
                            (BenchmarkResult.point_count r)
                            (map BenchmarkResult.point_count rest))]
                  end) d acc
             = acc ++ flat_map summary_of d).
  { induction d as [|[k [|r rest]] d IH]; intros acc; simpl.
    - now rewrite app_nil_r.
    - apply IH.
    - rewrite IH. unfold summary_of. simpl. now rewrite <- app_assoc. }
  apply H.
Qed.

(** C8.  For every pattern with a non-empty record list, [get_summary] has a
    line for the pattern whose FPS is the maximum of the FPS of its records
    and whose point count is the maximum of the point counts of its
    records, each maximum taken on its own; two records with fps 30, 100
    points and fps 45, 5000 points give 45 and 5000. *)
Theorem summary_independent_maxima
        (self : BenchmarkResult.t) (pattern : string)
        (rs : list BenchmarkResult.entry) :
  In (pattern, rs) (BenchmarkResult.pattern_results self) ->
  rs <> [] ->
  (exists line,
      In line (BenchmarkResult.get_summary self)
      /\ BenchmarkResult.line_pattern line = pattern
      /\ (exists r, In r rs
                    /\ BenchmarkResult.fps r = BenchmarkResult.max_fps line)
      /\ (forall r, In r rs ->
            (BenchmarkResult.fps r <= BenchmarkResult.max_fps line)%Q)
      /\ (exists r, In r rs
                    /\ BenchmarkResult.point_count r
                       = BenchmarkResult.max_points line)
      /\ (forall r, In r rs ->
            BenchmarkResult.point_count r <= BenchmarkResult.max_points line))
  /\ (forall stamp name d1 d2 t1 t2,
         BenchmarkResult.get_summary
           (BenchmarkResult.add_result
              (BenchmarkResult.add_result
                 (BenchmarkResult.init stamp) name d1 100 30 t1)
              name d2 5000 45 t2)
         = [BenchmarkResult.mkLine name 45 5000]).
Proof.
  intros Hin Hne. split.
  - destruct rs as [|r rest]; [congruence|].
    destruct (max_fps_spec (BenchmarkResult.fps r)
                           (map BenchmarkResult.fps rest)) as [Fin Fall].
    destruct (max_points_spec (BenchmarkResult.point_count r)
                (map BenchmarkResult.point_count rest)) as [Pin Pall].
    change (BenchmarkResult.fps r :: map BenchmarkResult.fps rest)
      with (map BenchmarkResult.fps (r :: rest)) in Fin, Fall.
    change (BenchmarkResult.point_count r
              :: map BenchmarkResult.point_count rest)
      with (map BenchmarkResult.point_count (r :: rest)) in Pin, Pall.
    eexists. split.
    + rewrite get_summary_lines. apply in_flat_map.
      exists (pattern, r :: rest). split; [exact Hin|]. now left.
    + cbn [BenchmarkResult.line_pattern BenchmarkResult.max_fps
             BenchmarkResult.max_points fst].
      split; [reflexivity|]. repeat split.
      * apply in_map_iff in Fin. destruct Fin as [r0 [E I]]. eauto.
      * intros r0 I. apply Fall. now apply in_map.
      * apply in_map_iff in Pin. destruct Pin as [r0 [E I]]. eauto.
      * intros r0 I. apply Pall. now apply in_map.
  - intros stamp name d1 d2 t1 t2.
    unfold BenchmarkResult.add_result, BenchmarkResult.init,
      BenchmarkResult.get_summary. simpl.
    repeat (rewrite String.eqb_refl; simpl). reflexivity.
Qed.

Lemma summary_independent_maxima_witness :
  let store :=
    BenchmarkResult.add_result
      (BenchmarkResult.add_result
         (BenchmarkResult.init "t") "Fibonacci Sphere" 0.5 5000 30 0.02)
      "Fibonacci Sphere" 1.0 100 45 0.01 in
  exists line,
    In line (BenchmarkResult.get_summary store)
    /\ BenchmarkResult.max_fps line = 45%Q
    /\ BenchmarkResult.max_points line = 5000.
Proof.
  intros store.
  destruct (summary_independent_maxima
              store "Fibonacci Sphere"
              [BenchmarkResult.mkEntry 0.5 5000 30 (0.02 * 1000);
               BenchmarkResult.mkEntry 1.0 100 45 (0.01 * 1000)])
    as [[line [Hin _]] _].
  - now left.
  - discriminate.
  - exists line. split; [exact Hin|].
    destruct Hin as [<- | []]. split; reflexivity.
Defined.

(** ** The driver *)

(** The render loop writes no file and records no result. *)
Lemma render_loop_keeps duration ps v st :
  files (outside (exit_state (render_loop duration ps v st)))
  = files (outside st)
  /\ result (self (exit_state (render_loop duration ps v st)))
     = result (self st)
  /\ patterns (self (exit_state (render_loop duration ps v st)))
     = patterns (self st).
Proof.
  revert v st. induction ps as [|p ps IH]; intros v st; simpl.
  - repeat split.
  - destruct (Qltb (since_start p) duration); [|repeat split].
    destruct (what p) as [|rt now|]; [repeat split | | repeat split].
    destruct (render_pattern now (rotation (self st)) (pattern_now v))
      as [[pattern calls]|]; [|repeat split].
    destruct (IH (mkLoop pattern (frames v + 1)
                         (total_render_time v + rt)%Q)
                 (mkState (set_rotation (self st) (rotation (self st) + 1.0)%Q)
                          (send (outside st) calls)))
      as [H1 [H2 H3]].
    split; [exact H1 | split; [exact H2 | exact H3]].
Qed.

(** [benchmark_pattern] writes no file. *)
Lemma benchmark_pattern_keeps_files tests k pattern densities duration st :
  files (outside (final_state
                    (benchmark_pattern tests k pattern densities duration st)))
  = files (outside st).
Proof.
  revert k pattern st.
  induction densities as [|density rest IH]; intros k pattern st.
  - reflexivity.
  - cbn [benchmark_pattern]. cbv zeta.
    set (p := generate (gen_clock (tests k)) pattern density).
    destruct (get_point_count p =? 0); [apply IH|].
    destruct (render_loop_keeps duration (passes (tests k)) (mkLoop p 0 0) st)
      as [Hf _].
    destruct (render_loop duration (passes (tests k)) (mkLoop p 0 0) st)
      as [v st' | v st' | v st']; simpl in Hf; try exact Hf.
    rewrite IH. exact Hf.
Qed.

Lemma sweep_keeps_files env k todo densities duration st :
  files (outside (final_state (sweep env k todo densities duration st)))
  = files (outside st).
Proof.
  revert k st. induction todo as [|pattern rest IH]; intros k st.
  - reflexivity.
  - cbn [sweep].
    assert (H := benchmark_pattern_keeps_files
                   (test env k) O pattern densities duration st).
    destruct (benchmark_pattern (test env k) O pattern densities duration st)
      as [[finished p] st' | st']; simpl in H; [|exact H].
    destruct finished; [rewrite IH|]; exact H.
Qed.

Lemma fibonacci_keeps_class now self d :
  cls (FibonacciSphere.generate now self d) = cls self
  /\ name (FibonacciSphere.generate now self d) = name self.
Proof.
  unfold FibonacciSphere.generate.
  apply (fold_left_invariant
           (fun s => cls s = cls self /\ name s = name self)).
  - split; reflexivity.
  - intros s i _ Hs. exact Hs.
Qed.

(** A pattern that is not a [ParticleSystem] is rendered as it is. *)
Lemma render_pattern_static now rotation pattern :
  cls pattern <> ClsParticleSystem ->
  exists calls, render_pattern now rotation pattern = Some (pattern, calls).
Proof.
  intros Hc. unfold render_pattern.
  destruct (cls pattern); try congruence; eexists; reflexivity.
Qed.

Lemma render_loop_quit duration p ps v st :
  Qltb (since_start p) duration = true -> what p = Quit ->
  render_loop duration (p :: ps) v st = QuitSeen v st.
Proof. intros Ht Hw. cbn [render_loop]. now rewrite Ht, Hw. Qed.

Lemma render_loop_failure duration p ps v st :
  Qltb (since_start p) duration = true -> what p = Failure ->
  render_loop duration (p :: ps) v st = Raised v st.
Proof. intros Ht Hw. cbn [render_loop]. now rewrite Ht, Hw. Qed.

Lemma render_loop_frame duration p ps v st rt now pattern calls :
  Qltb (since_start p) duration = true -> what p = Frame rt now ->
  render_pattern now (rotation (self st)) (pattern_now v)
  = Some (pattern, calls) ->
  render_loop duration (p :: ps) v st
  = render_loop duration ps
      (mkLoop pattern (frames v + 1) (total_render_time v + rt)%Q)
      (mkState (set_rotation (self st) (rotation (self st) + 1.0)%Q)
               (send (outside st) calls)).
Proof. intros Ht Hw Hr. cbn [render_loop]. now rewrite Ht, Hw, Hr. Qed.

(** The body of [benchmark_pattern] for one density. *)
Lemma benchmark_pattern_step tests k pattern density rest duration st :
  benchmark_pattern tests k pattern (density :: rest) duration st
  = let env := tests k in
    let pattern := generate (gen_clock env) pattern density in
    let point_count := get_point_count pattern in
    if point_count =? 0 then
      benchmark_pattern tests (S k) pattern rest duration st
    else
      match render_loop duration (passes env) (mkLoop pattern 0 0) st with
      | QuitSeen v st => Returns (false, pattern_now v) st
      | Raised _ st => Raises st
      | TimeUp v st =>
          let fps :=
            if Qltb 0 (elapsed env)
            then (inject_Z (frames v) / elapsed env)%Q else 0%Q in
          let avg_render_time :=
            if frames v >? 0
            then (total_render_time v / inject_Z (frames v))%Q else 0%Q in
          let st := record_result st (name pattern) density point_count
                                  fps avg_render_time in
          benchmark_pattern tests (S k) (pattern_now v) rest duration st
      end.
Proof. reflexivity. Qed.

(** C7.  For every (pattern, density) pair of the sweep, if generation
    yields 0 points then [benchmark_pattern] goes on with the next density
    in the same state: nothing is recorded for this density, nothing is
    rendered and nothing is raised. *)
Theorem zero_points_density_skipped
        (tests : nat -> test_env) (k : nat) (pattern : PolarSpherePattern)
        (density : Q) (rest : list Q) (duration : Q) (st : state) :
  get_point_count (generate (gen_clock (tests k)) pattern density) = 0 ->
  benchmark_pattern tests k pattern (density :: rest) duration st
  = benchmark_pattern tests (S k)
      (generate (gen_clock (tests k)) pattern density) rest duration st.
Proof.
  intros Hzero. rewrite benchmark_pattern_step. cbv zeta.
  now rewrite Hzero.
Qed.

Lemma zero_points_density_skipped_witness :
  let tests := fun _ : nat => mkTest (fun _ => 0%R) [] 0 in
  let st := mkState (init "t" 1920 1080 false) (mkWorld [] [] true) in
  get_point_count (generate (fun _ => 0%R) MandelbrotSphere.init 0.01) = 0
  /\ final_state
       (benchmark_pattern tests O MandelbrotSphere.init [0.01%Q] 3.0 st) = st.
Proof.
  intros tests st. split; [reflexivity|].
  rewrite (zero_points_density_skipped tests O MandelbrotSphere.init 0.01
                                       [] 3.0 st); reflexivity.
Defined.

(** ** Exceptions during the run *)

Lemma fibonacci_point_count now self d :
  cls self = ClsFibonacciSphere ->
  get_point_count (generate now self d) = Z.max 0 (py_int (d * 10000))
  /\ cls (generate now self d) = ClsFibonacciSphere
  /\ name (generate now self d) = name self.
Proof.
  intros Hc. unfold generate. rewrite Hc.
  destruct (fibonacci_keeps_class now self d) as [H1 H2].
  destruct (fibonacci_count now self d) as [H3 _].
  unfold get_point_count, len. rewrite H3, H1, H2. repeat split; auto. lia.
Qed.

(** A test of a [FibonacciSphere] in which exactly one frame is rendered:
    the frame is drawn, the rotation advances, one record is appended, and
    the call goes on with the next density. *)
Lemma fibonacci_one_frame_test tests k pattern density rest duration st
      clock rt now el :
  tests k = mkTest clock [mkPass 0 (Frame rt now)] el ->
  Qltb 0 duration = true ->
  cls pattern = ClsFibonacciSphere ->
  0 < py_int (density * 10000) ->
  exists calls,
    benchmark_pattern tests k pattern (density :: rest) duration st
    = benchmark_pattern tests (S k) (generate clock pattern density) rest
        duration
        (record_result
           (mkState (set_rotation (self st) (rotation (self st) + 1.0)%Q)
                    (send (outside st) calls))
           (name pattern) density (py_int (density * 10000))
           (if Qltb 0 el then (inject_Z (0 + 1) / el)%Q else 0%Q)
           (if 0 + 1 >? 0 then ((0 + rt) / inject_Z (0 + 1))%Q else 0%Q)).
Proof.
  intros Htest Hdur Hc Hn.
  destruct (fibonacci_point_count clock pattern density Hc) as [Hn1 [Hc1 Hm1]].
  destruct (render_pattern_static now (rotation (self st))
              (generate clock pattern density)) as [calls Hr].
  { rewrite Hc1. discriminate. }
  exists calls. rewrite benchmark_pattern_step, Htest. cbv zeta.
  cbn [gen_clock passes elapsed].
  rewrite Hn1, Hm1, Z.max_r by lia.
  destruct (py_int (density * 10000) =? 0) eqn:E; [lia|].
  rewrite (render_loop_frame duration (mkPass 0 (Frame rt now)) []
             (mkLoop (generate clock pattern density) 0 0) st rt now
             (generate clock pattern density) calls Hdur eq_refl Hr).
  reflexivity.
Qed.

Lemma crash_run :
  exists st' e,
    run_body crash_env (arg_densities crash_args) (arg_duration crash_args)
             (mkState (configure "t" crash_args) empty_world) = Raises st'
    /\ BenchmarkResult.pattern_results (result (self st'))
       = [("Fibonacci Sphere"%string, [e])]
    /\ BenchmarkResult.point_count e = 10.
Proof.
  change (arg_densities crash_args) with [0.001; 0.002]%Q.
  change (arg_duration crash_args) with 3.0%Q.
  unfold run_body.
  change (init_pygame crash_env
            (mkState (configure "t" crash_args) empty_world))
    with (Returns tt
            (mkState
               (set_result (configure "t" crash_args)
                  (BenchmarkResult.mk []
                     [("gpu_vendor", "vendor"); ("gpu_renderer", "renderer");
                      ("opengl_version", "version")]%string "t"))
               (set_pygame empty_world true))).
  cbv iota beta.
  set (st1 := mkState _ _).
  change (patterns (self st1)) with [FibonacciSphere.init].
  cbn [sweep].
  destruct (fibonacci_one_frame_test
              (test crash_env 0) O FibonacciSphere.init 0.001 [0.002%Q] 3.0
              st1 (fun _ => 0%R) 0.01 (fun _ _ => 0%R) 3.0
              eq_refl eq_refl eq_refl eq_refl) as [calls1 ->].
  set (p1 := generate (fun _ => 0%R) FibonacciSphere.init 0.001).
  set (st2 := record_result _ _ _ _ _ _).
  destruct (fibonacci_point_count (fun _ => 0%R) FibonacciSphere.init 0.001
                                  eq_refl) as [_ [Hc1 _]].
  fold p1 in Hc1.
  destruct (fibonacci_point_count (gen_clock (test crash_env 0 1))
              p1 0.002 Hc1) as [Hn2 _].
  rewrite benchmark_pattern_step. cbv zeta. rewrite Hn2.
  change (Z.max 0 (py_int (0.002 * 10000)) =? 0) with false. cbv iota.
  rewrite (render_loop_failure 3.0 (mkPass 0 Failure) [] _ st2
                               eq_refl eq_refl).
  exists st2. eexists. repeat split.
Qed.

Lemma run_body_raises_keeps_files env densities duration st st' :
  run_body env densities duration st = Raises st' ->
  files (outside st') = files (outside st).
Proof.
  unfold run_body, init_pygame.
  destruct (setup_fails env).
  - intros H. now injection H as <-.
  - match goal with
    | |- context [sweep env O ?ps densities duration ?s] =>
        assert (Hk := sweep_keeps_files env O ps densities duration s);
        destruct (sweep env O ps densities duration s) as [b s' | s']
    end; [discriminate|].
    intros H. injection H as <-. exact Hk.
Qed.

(** C3, amended.  If an exception is raised during the benchmark run (in
    the setup or anywhere in the sweep), the run terminates with exit
    status 1 and no result file is written: the files are left as they
    were, and the records collected before the exception stay in memory
    only. *)
Theorem exception_exits_nonzero_without_saving
        (env : environment) (stamp : string) (args : arguments) (w : world)
        (st' : state) :
  run_body env (arg_densities args) (arg_duration args)
           (mkState (configure stamp args) w) = Raises st' ->
  fst (main env stamp args w) = 1
  /\ files (outside (snd (main env stamp args w))) = files w
  /\ result (self (snd (main env stamp args w))) = result (self st').
Proof.
  intros H. assert (Hf := run_body_raises_keeps_files _ _ _ _ _ H).
  unfold main, run_benchmark. rewrite H. repeat split. exact Hf.
Qed.

Lemma exception_exits_nonzero_without_saving_witness :
  fst (main crash_env "t" crash_args empty_world) = 1
  /\ files (outside (snd (main crash_env "t" crash_args empty_world))) = [].
Proof.
  destruct crash_run as [st' [e [Hrun _]]].
  destruct (exception_exits_nonzero_without_saving
              crash_env "t" crash_args empty_world st' Hrun) as [H1 [H2 _]].
  split; [exact H1 | exact H2].
Defined.

(** C3 as stated fails: in this run one record has been collected when the
    exception is raised; the exit status is 1, but the record is in no
    file, for no file has been written. *)
Lemma crash_loses_collected_records :
  fst (main crash_env "t" crash_args empty_world) = 1
  /\ (exists e,
         BenchmarkResult.pattern_results
           (result (self (snd (main crash_env "t" crash_args empty_world))))
         = [("Fibonacci Sphere"%string, [e])]
         /\ BenchmarkResult.point_count e = 10)
  /\ files (outside (snd (main crash_env "t" crash_args empty_world))) = [].
Proof.
  destruct crash_run as [st' [e [Hrun [Hres Hcount]]]].
  assert (Hf := run_body_raises_keeps_files _ _ _ _ _ Hrun).
  unfold main, run_benchmark. rewrite Hrun. repeat split.
  - exists e. split; assumption.
  - exact Hf.
Qed.


(** ** The quit signal *)









(** ** The gravity step *)

Lemma item_some {A : Type} (l : list A) (i : Z) :
  0 <= i < len l -> exists x, item l i = Some x.
Proof.
  unfold item, len. intros Hi.
  destruct (nth_error l (Z.to_nat i)) eqn:E; [eauto|].
  apply nth_error_None in E. lia.
Qed.

Lemma fdiv_some (a b : R) : b <> 0%R -> fdiv a b = Some (a / b)%R.
Proof.
  intros Hb. unfold fdiv. destruct (Req_dec_T b 0); [contradiction|reflexivity].
Qed.

Lemma add_force_some (forces : list vec3) (k : Z) (d : vec3) :
  0 <= k < len forces ->
  exists forces',
    ParticleSystem.add_force forces k d = Some forces'
    /\ List.length forces' = List.length forces.
Proof.
  intros Hk. unfold ParticleSystem.add_force.
  destruct (item_some forces k Hk) as [[[fx fy] fz] ->].
  destruct d as [[ax ay] az]. simpl.
  eexists. split; [reflexivity|]. apply store_length.
Qed.

Lemma sub_force_some (forces : list vec3) (k : Z) (d : vec3) :
  0 <= k < len forces ->
  exists forces',
    ParticleSystem.sub_force forces k d = Some forces'
    /\ List.length forces' = List.length forces.
Proof.
  intros Hk. unfold ParticleSystem.sub_force.
  destruct (item_some forces k Hk) as [[[fx fy] fz] ->].
  destruct d as [[ax ay] az]. simpl.
  eexists. split; [reflexivity|]. apply store_length.
Qed.

Lemma pair_force_some self vs ms i j forces :
  well_formed self vs ms ->
  0 <= i < len (points self) -> 0 <= j < len (points self) ->
  List.length forces = List.length (points self) ->
  exists forces',
    ParticleSystem.pair_force self i (Some forces) j = Some forces'
    /\ List.length forces' = List.length (points self).
Proof.
  intros [Hv [Hm [Hlv [Hlm Hnz]]]] Hi Hj Hf.
  unfold ParticleSystem.pair_force. cbn [bind].
  destruct (item_some (points self) i Hi) as [[[x1 y1] z1] ->].
  destruct (item_some (points self) j Hj) as [[[x2 y2] z2] ->].
  cbn [bind]. rewrite Hm. cbn [bind].
  destruct (item_some ms i) as [mi ->]; [unfold len in *; lia|].
  destruct (item_some ms j) as [mj ->]; [unfold len in *; lia|].
  cbn [bind].
  set (r := (sqrt ((x2 - x1) * (x2 - x1) + (y2 - y1) * (y2 - y1)
                   + (z2 - z1) * (z2 - z1)) + 0.001)%R).
  assert (Hr : (0 < r)%R).
  { unfold r. assert (H := sqrt_pos ((x2 - x1) * (x2 - x1)
                                     + (y2 - y1) * (y2 - y1)
                                     + (z2 - z1) * (z2 - z1))). lra. }
  rewrite (fdiv_some _ (r * r)) by nra. cbn [bind].
  rewrite !(fdiv_some _ r) by lra. cbn [bind].
  destruct (add_force_some forces i
              ((ParticleSystem.G * mi * mj / (r * r) * ((x2 - x1) / r))%R,
               (ParticleSystem.G * mi * mj / (r * r) * ((y2 - y1) / r))%R,
               (ParticleSystem.G * mi * mj / (r * r) * ((z2 - z1) / r))%R))
    as [f1 [-> Hl1]]; [unfold len in *; lia|].
  cbn [bind].
  destruct (sub_force_some f1 j
              ((ParticleSystem.G * mi * mj / (r * r) * ((x2 - x1) / r))%R,
               (ParticleSystem.G * mi * mj / (r * r) * ((y2 - y1) / r))%R,
               (ParticleSystem.G * mi * mj / (r * r) * ((z2 - z1) / r))%R))
    as [f2 [-> Hl2]]; [unfold len in *; lia|].
  exists f2. split; [reflexivity | lia].
Qed.

(** The force loops never raise on a well-formed field. *)
Lemma compute_forces_some self vs ms :
  well_formed self vs ms ->
  exists forces,
    ParticleSystem.compute_forces self (len (points self)) = Some forces
    /\ List.length forces = List.length (points self).
Proof.
  intros Hwf. unfold ParticleSystem.compute_forces.
  set (n := len (points self)).
  apply (fold_left_invariant
           (fun acc => exists forces,
                acc = Some forces
                /\ List.length forces = List.length (points self))).
  - eexists. split; [reflexivity|].
    rewrite length_map, range_length. unfold n, len. lia.
  - intros acc i Hi Hacc. unfold ParticleSystem.row_forces.
    apply in_py_range in Hi.
    apply (fold_left_invariant
             (fun acc => exists forces,
                  acc = Some forces
                  /\ List.length forces = List.length (points self))).
    + exact Hacc.
    + intros acc' j Hj [forces [-> Hl]]. apply in_py_range in Hj.
      apply (pair_force_some self vs ms); auto; unfold n in *; lia.
Qed.

Lemma renormalise_unit (q : vec3) :
  ParticleSystem.magnitude q <> 0%R ->
  on_unit_sphere (ParticleSystem.renormalise q).
Proof.
  destruct q as [[x y] z]. unfold ParticleSystem.renormalise. intros Hq.
  destruct (Rlt_dec 0 (ParticleSystem.magnitude (x, y, z))) as [Hm | Hm].
  - unfold ParticleSystem.magnitude in *. now apply normalised_unit.
  - exfalso. unfold ParticleSystem.magnitude in *.
    assert (H := sqrt_pos (x ^ 2 + y ^ 2 + z ^ 2)). lra.
Qed.

Lemma well_formed_lengths self vs ms :
  well_formed self vs ms ->
  len vs = len (points self) /\ len ms = len (points self).
Proof. intros [_ [_ [Hv [Hm _]]]]. unfold len. split; lia. Qed.

(** One iteration of the second loop on a well-formed field. *)
Lemma integrate_step dt forces self vs ms i :
  well_formed self vs ms ->
  List.length forces = List.length (points self) ->
  0 <= i < len (points self) ->
  exists p0 v',
    item (points self) i = Some p0
    /\ ParticleSystem.integrate dt forces (Some self) i
       = Some (set_points
                 (set_velocities self (store vs (Z.to_nat i) v'))
                 (store (points self) (Z.to_nat i)
                        (ParticleSystem.renormalise
                           (ParticleSystem.drift dt p0 v'))))
    /\ well_formed
         (set_points
            (set_velocities self (store vs (Z.to_nat i) v'))
            (store (points self) (Z.to_nat i)
                   (ParticleSystem.renormalise
                      (ParticleSystem.drift dt p0 v'))))
         (store vs (Z.to_nat i) v') ms.
Proof.
  intros Hwf Hf Hi.
  destruct (well_formed_lengths _ _ _ Hwf) as [Hlv Hlm].
  destruct Hwf as [Hv [Hm [Hv' [Hm' Hnz]]]].
  destruct (item_some (points self) i Hi) as [p0 Hp0].
  destruct (item_some vs i) as [[[vx vy] vz] Hv0]; [lia|].
  destruct (item_some forces i) as [[[fx fy] fz] Hf0];
    [unfold len in *; lia|].
  destruct (item_some ms i) as [m Hm0]; [lia|].
  assert (Hmnz : m <> 0%R).
  { rewrite Forall_forall in Hnz. apply Hnz.
    unfold item in Hm0. eapply nth_error_In; eassumption. }
  exists p0. eexists. split; [exact Hp0|].
  unfold ParticleSystem.integrate. cbn [bind].
  rewrite Hv. cbn [bind]. rewrite Hv0, Hf0. cbn [bind].
  rewrite Hm. cbn [bind]. rewrite Hm0. cbn [bind].
  unfold ParticleSystem.kick. rewrite !(fdiv_some _ m) by assumption.
  cbn [bind points set_velocities]. rewrite Hp0. cbn [bind].
  split; [reflexivity|].
  unfold well_formed. cbn [velocities masses points set_points set_velocities].
  rewrite !store_length. repeat split; assumption.
Qed.

(** The second loop over any duplicate-free list of valid indices. *)
Lemma integrate_fold dt forces ms idx :
  forall self vs,
    well_formed self vs ms ->
    List.length forces = List.length (points self) ->
    NoDup idx ->
    (forall i, In i idx -> 0 <= i < len (points self)) ->
    exists self' vs',
      fold_left (ParticleSystem.integrate dt forces) idx (Some self)
      = Some self'
      /\ well_formed self' vs' ms
      /\ List.length (points self') = List.length (points self)
      /\ (forall i, In i idx ->
            exists p0 v',
              item (points self) i = Some p0
              /\ item vs' i = Some v'
              /\ item (points self') i
                 = Some (ParticleSystem.renormalise
                           (ParticleSystem.drift dt p0 v')))
      /\ (forall i, 0 <= i -> ~ In i idx ->
            item (points self') i = item (points self) i
            /\ item vs' i = item vs i).
Proof.
  induction idx as [|a rest IH]; intros self vs Hwf Hf Hnd Hin.
  - exists self, vs. split; [reflexivity|]. split; [assumption|].
    split; [reflexivity|]. split; [intros i []|].
    intros; split; reflexivity.
  - assert (Ha : 0 <= a < len (points self)) by (apply Hin; now left).
    destruct (integrate_step dt forces self vs ms a Hwf Hf Ha)
      as [p0 [v' [Hp0 [Hstep Hwf1]]]].
    set (self1 := set_points _ _) in *.
    inversion Hnd as [|? ? Hnotin Hnd']; subst.
    assert (Hlen1 : List.length (points self1) = List.length (points self)).
    { unfold self1. cbn [points set_points]. apply store_length. }
    destruct (IH self1 (store vs (Z.to_nat a) v') Hwf1) as
      [self' [vs' [Hfold [Hwf' [Hlen [Hdone Hrest]]]]]].
    + lia.
    + assumption.
    + intros i Hi. unfold len. rewrite Hlen1. apply Hin. now right.
    + exists self', vs'. cbn [fold_left]. rewrite Hstep.
      split; [exact Hfold|]. split; [exact Hwf'|]. split; [lia|].
      assert (Ha1 : (Z.to_nat a < List.length (points self))%nat)
        by (unfold len in Ha; lia).
      assert (Hav : (Z.to_nat a < List.length vs)%nat).
      { destruct Hwf as [_ [_ [Hv _]]]. lia. }
      split.
      * intros i [<- | Hi].
        -- destruct (Hrest a) as [Hp Hv]; [lia | assumption |].
           exists p0, v'. split; [exact Hp0|]. split.
           ++ rewrite Hv. unfold item. now apply store_same.
           ++ rewrite Hp. unfold self1, item. cbn [points set_points].
              now apply store_same.
        -- destruct (Hdone i Hi) as [q0 [w' [Hq0 [Hw' Hq']]]].
           assert (Hia : i <> a) by (intros ->; contradiction).
           assert (Hi0 : 0 <= i) by (apply (Hin i); now right).
           exists q0, w'. split; [|split; assumption].
           rewrite <- Hq0. unfold self1, item. cbn [points set_points].
           symmetry. apply store_other. lia.
      * intros i Hi0 Hni.
        assert (Hia : i <> a) by (intros ->; apply Hni; now left).
        destruct (Hrest i Hi0) as [Hp Hv]; [intros H; apply Hni; now right|].
        rewrite Hp, Hv. unfold self1, item. cbn [points set_points].
        split; apply store_other; lia.
Qed.

(** C6.  On every particle field (one velocity and one non-zero mass per
    position), one call of [update_physics] returns without raising; it
    leaves the number of particles and every mass as they were; and the new
    position of particle [i] is the integrated position
    [p + v' * dt] ([v'] the new velocity) put back on the sphere: whenever
    the integrated position has a magnitude other than zero, the new
    position has Euclidean norm 1. *)
Theorem update_physics_keeps_count_and_masses
        (dt : R) (self : PolarSpherePattern)
        (vs : list vec3) (ms : list R) :
  well_formed self vs ms ->
  exists self' vs',
    ParticleSystem.update_physics dt self = Some self'
    /\ List.length (points self') = List.length (points self)
    /\ masses self' = masses self
    /\ velocities self' = Some vs'
    /\ forall (i : nat) (p0 : vec3),
         nth_error (points self) i = Some p0 ->
         exists v' p',
           nth_error vs' i = Some v'
           /\ nth_error (points self') i = Some p'
           /\ p' = ParticleSystem.renormalise (ParticleSystem.drift dt p0 v')
           /\ (ParticleSystem.magnitude (ParticleSystem.drift dt p0 v')
               <> 0%R -> norm p' = 1%R).
Proof.
  intros Hwf. unfold ParticleSystem.update_physics.
  destruct (compute_forces_some self vs ms Hwf) as [forces [-> Hlf]].
  cbn [bind].
  destruct (integrate_fold dt forces ms (range (len (points self))) self vs
              Hwf Hlf (py_range_NoDup _ _)) as
    [self' [vs' [Hfold [Hwf' [Hlen [Hdone _]]]]]].
  { intros i Hi. now apply in_py_range in Hi. }
  exists self', vs'. split; [exact Hfold|]. split; [exact Hlen|].
  destruct Hwf as [_ [Hm _]]. destruct Hwf' as [Hv' [Hm' _]].
  split; [congruence|]. split; [exact Hv'|].
  intros i p0 Hp0.
  assert (Hi : (i < List.length (points self))%nat).
  { apply nth_error_Some. congruence. }
  destruct (Hdone (Z.of_nat i)) as [q0 [v' [Hq0 [Hv Hp]]]].
  { apply in_py_range. unfold len. lia. }
  unfold item in Hq0, Hv, Hp. rewrite Nat2Z.id in Hq0, Hv, Hp.
  assert (q0 = p0) by congruence. subst q0.
  exists v'. eexists. split; [exact Hv|]. split; [exact Hp|].
  split; [reflexivity|]. apply renormalise_unit.
Qed.

Lemma update_physics_keeps_count_and_masses_witness :
  well_formed two_particles [(0, 0, 0); (0, 0, 0)]%R [1; 1]%R
  /\ exists self',
       ParticleSystem.update_physics ParticleSystem.default_dt two_particles
       = Some self'
       /\ List.length (points self') = 2%nat
       /\ masses self' = Some [1; 1]%R.
Proof.
  assert (Hwf : well_formed two_particles [(0, 0, 0); (0, 0, 0)]%R [1; 1]%R).
  { unfold well_formed. repeat split.
    repeat constructor; apply R1_neq_R0. }
  split; [exact Hwf|].
  destruct (update_physics_keeps_count_and_masses
              ParticleSystem.default_dt two_particles
              [(0, 0, 0); (0, 0, 0)]%R [1; 1]%R Hwf)
    as [self' [vs' [Hrun [Hlen [Hm _]]]]].
  exists self'. split; [exact Hrun|]. split; [exact Hlen | exact Hm].
Defined.

(** ** The shadowed particle generator

    The first [generate] of [ParticleSystem], the one that the second
    definition replaces, is the particle generator proper. *)

Lemma shadowed_body_field rnd n p i :
  (forall k, (0 <= rnd k < 1)%R) ->
  particle_field_of n p ->
  exists p',
    ParticleSystem.body_shadowed rnd p i = Some p'
    /\ particle_field_of (S n) p'.
Proof.
  intros Hrnd [vs [ms [Hv [Hm [Lp [Lc [Lv [Lm [Fp [Fv Fm]]]]]]]]]].
  unfold ParticleSystem.body_shadowed.
  cbn [velocities masses append_point set_points set_velocities]. rewrite Hv.
  cbn [bind masses set_velocities]. rewrite Hm. cbn [bind].
  eexists. split; [reflexivity|].
  exists (vs ++ [(ParticleSystem.uniform (-0.01) 0.01 (rnd (6 * i + 2)),
                  ParticleSystem.uniform (-0.01) 0.01 (rnd (6 * i + 3)),
                  ParticleSystem.uniform (-0.01) 0.01 (rnd (6 * i + 4)))]),
         (ms ++ [ParticleSystem.uniform 0.5 2.0 (rnd (6 * i + 5))]).
  unfold append_color, append_point, set_colors, set_points, set_masses,
    set_velocities.
  cbn [velocities masses points colors].
  rewrite !length_app. cbn [List.length].
  split; [reflexivity|]. split; [reflexivity|].
  split; [lia|]. split; [lia|]. split; [lia|]. split; [lia|].
  split; [|split].
  - apply Forall_app. split; [assumption|].
    constructor; [apply spherical_unit | constructor].
  - apply Forall_app. split; [assumption|]. constructor; [|constructor].
    unfold ParticleSystem.uniform.
    assert (H2 := Hrnd (6 * i + 2)). assert (H3 := Hrnd (6 * i + 3)).
    assert (H4 := Hrnd (6 * i + 4)). repeat split; lra.
  - apply Forall_app. split; [assumption|]. constructor; [|constructor].
    unfold ParticleSystem.uniform. assert (H5 := Hrnd (6 * i + 5)). lra.
Qed.

(** With [random.random()] in [0, 1), the shadowed generator builds a
    particle field of [int(d * 5000)] particles, for every density. *)
Lemma shadowed_generate_as_claimed rnd self d :
  (forall k, (0 <= rnd k < 1)%R) ->
  exists p,
    ParticleSystem.generate_shadowed rnd self d = Some p
    /\ particle_field_of (Z.to_nat (py_int (d * 5000))) p.
Proof.
  intros Hrnd. unfold ParticleSystem.generate_shadowed.
  rewrite <- (range_length (py_int (d * 5000))).
  set (start := set_masses _ []).
  assert (H0 : particle_field_of 0 start).
  { exists [], []. unfold start. repeat split; constructor. }
  assert (Hloop : forall l n p,
             particle_field_of n p ->
             exists q,
               fold_left
                 (fun acc i =>
                    self0 <- acc ;; ParticleSystem.body_shadowed rnd self0 i)
                 l (Some p) = Some q
               /\ particle_field_of (n + List.length l) q).
  { induction l as [|i l IH]; intros n p Hp.
    - exists p. split; [reflexivity|]. now rewrite Nat.add_0_r.
    - cbn [fold_left bind List.length].
      destruct (shadowed_body_field rnd n p i Hrnd Hp) as [p' [-> Hp']].
      destruct (IH (S n) p' Hp') as [q [Hq Hfield]].
      exists q. split; [exact Hq|]. now rewrite Nat.add_succ_r. }
  apply (Hloop _ 0%nat start H0).
Qed.

(** ** ParticleSystem in the sweep *)


(** ** The model at work on small inputs *)

Example py_int_truncates :
  py_int 3.7 = 3 /\ py_int (- 3.7) = -3 /\ py_int (0.5 * 10000) = 5000.
Proof. repeat split. Qed.

Example primes_upto_30 :
  PrimeSpiral.primes_upto 30 = [2; 3; 5; 7; 11; 13; 17; 19; 23; 29].
Proof. reflexivity. Qed.

Example is_prime_samples :
  PrimeSpiral.is_prime 97 = true /\ PrimeSpiral.is_prime 91 = false
  /\ PrimeSpiral.is_prime 1 = false.
Proof. repeat split. Qed.

(** [2 + 2j] escapes after one step, [0] never, [-0.75 + 0.5j] after
    six. *)
Example mandelbrot_iterations_samples :
  MandelbrotSphere.mandelbrot_iterations (2, 2)%Q 10 = 1
  /\ MandelbrotSphere.mandelbrot_iterations (0, 0)%Q 10 = 10
  /\ MandelbrotSphere.mandelbrot_iterations (- (3 # 4), 1 # 2)%Q 8 = 6.
Proof. repeat split. Qed.

(** At density 0.04 the grid is 4 by 4 and [max_iter] is 2: five cells of
    each of the three layers lie outside the circle of radius 2 and are
    kept.  At density 0.02, [max_iter] is 1 and no escape can be seen. *)
Example mandelbrot_small_fields :
  get_point_count (MandelbrotSphere.generate MandelbrotSphere.init 0.04) = 15
  /\ get_point_count (MandelbrotSphere.generate MandelbrotSphere.init 0.02)
     = 0.
Proof. split; reflexivity. Qed.

(** Two patterns, one record each: one summary line per pattern, in the
    order of insertion. *)
Example get_summary_two_patterns :
  BenchmarkResult.get_summary
    (BenchmarkResult.add_result
       (BenchmarkResult.add_result
          (BenchmarkResult.init "t") "a" 0.5 100 30 0.01)
       "b" 1.0 5000 45 0.02)
  = [BenchmarkResult.mkLine "a" 30 100; BenchmarkResult.mkLine "b" 45 5000].
Proof. reflexivity. Qed.

(** * Further properties *)

(** ** PrimeSpiral.is_prime *)


(** ** What every [generate] keeps *)

Lemma reset_paired (self : PolarSpherePattern) :
  paired (set_colors (set_points self []) [])
  /\ same_identity (set_colors (set_points self []) []) self.
Proof. repeat split. Qed.

Lemma append_paired (self s : PolarSpherePattern) (p : vec3) (c : color4) :
  paired s /\ same_identity s self ->
  paired (append_color (append_point s p) c)
  /\ same_identity (append_color (append_point s p) c) self.
Proof.
  intros [Hp Hi]. split; [|exact Hi].
  unfold paired, append_color, append_point in *. simpl.
  rewrite !length_app. simpl. lia.
Qed.

Lemma fibonacci_generate_paired now self d :
  paired (FibonacciSphere.generate now self d)
  /\ same_identity (FibonacciSphere.generate now self d) self.
Proof.
  unfold FibonacciSphere.generate.
  apply (fold_left_invariant (fun s => paired s /\ same_identity s self)).
  - apply reset_paired.
  - intros s i _ Hs. now apply append_paired.
Qed.

Lemma prime_generate_paired self d :
  paired (PrimeSpiral.generate self d)
  /\ same_identity (PrimeSpiral.generate self d) self.
Proof.
  unfold PrimeSpiral.generate.
  apply (fold_left_invariant (fun s => paired s /\ same_identity s self)).
  - apply reset_paired.
  - intros s [i p] _ Hs. now apply append_paired.
Qed.

Lemma mandelbrot_generate_paired self d :
  paired (MandelbrotSphere.generate self d)
  /\ same_identity (MandelbrotSphere.generate self d) self.
Proof.
  unfold MandelbrotSphere.generate.
  apply (fold_left_invariant (fun s => paired s /\ same_identity s self));
    [apply reset_paired|].
  intros s1 layer _ H1. unfold MandelbrotSphere.sheet.
  apply (fold_left_invariant (fun s => paired s /\ same_identity s self));
    [exact H1|].
  intros s2 i _ H2. unfold MandelbrotSphere.row.
  apply (fold_left_invariant (fun s => paired s /\ same_identity s self));
    [exact H2|].
  intros s3 j _ H3. unfold MandelbrotSphere.cell.
  match goal with |- context [if ?b then _ else _] => destruct b end;
    [now apply append_paired | exact H3].
Qed.

Lemma lorenz_generate_paired self d :
  paired (LorenzAttractor.generate self d)
  /\ same_identity (LorenzAttractor.generate self d) self.
Proof.
  unfold LorenzAttractor.generate.
  apply (fold_left_invariant (fun s => paired s /\ same_identity s self));
    [apply reset_paired|].
  intros s attractor _ Hs. unfold LorenzAttractor.attractor_run.
  apply (fold_left_invariant
           (fun st : LorenzAttractor.orbit =>
              paired (fst st) /\ same_identity (fst st) self));
    [exact Hs|].
  intros [s' [[x y] z]] i _ Hs'. unfold LorenzAttractor.body. cbv zeta.
  match goal with |- context [Rlt_dec 0 ?m] => destruct (Rlt_dec 0 m) end;
    [now apply append_paired | exact Hs'].
Qed.

Lemma generate_paired now pattern d :
  paired (generate now pattern d)
  /\ same_identity (generate now pattern d) pattern.
Proof.
  unfold generate. destruct (cls pattern).
  - apply fibonacci_generate_paired.
  - apply prime_generate_paired.
  - apply mandelbrot_generate_paired.
  - apply lorenz_generate_paired.
  - rewrite particle_generate_resets. apply reset_paired.
Qed.

(** X2.  Whatever the class of the object, the density and the clock:
    after [generate], [points] and [colors] have the same length, and the
    class, name, description, [velocities] and [masses] of the object are
    as before. *)
Theorem generate_keeps_pairing_and_identity
        (now : Z -> R) (pattern : PolarSpherePattern) (d : Q) :
  List.length (points (generate now pattern d))
  = List.length (colors (generate now pattern d))
  /\ cls (generate now pattern d) = cls pattern
  /\ name (generate now pattern d) = name pattern
  /\ description (generate now pattern d) = description pattern
  /\ velocities (generate now pattern d) = velocities pattern
  /\ masses (generate now pattern d) = masses pattern.
Proof. exact (generate_paired now pattern d). Qed.

(** ** The escape count *)

Lemma escape_from (c : MandelbrotSphere.complex) (m : Z) :
  forall (k a : nat),
    let r := MandelbrotSphere.escape
               c m (map (fun j => 0 + Z.of_nat j) (seq a k)) (orbit c a) in
    (r = m
     /\ forall j, (a <= j < a + k)%nat ->
                  MandelbrotSphere.abs_gt_2 (orbit c j) = false)
    \/ (exists j, (a <= j < a + k)%nat /\ r = Z.of_nat j
                  /\ MandelbrotSphere.abs_gt_2 (orbit c j) = true
                  /\ forall i, (a <= i < j)%nat ->
                               MandelbrotSphere.abs_gt_2 (orbit c i) = false).
Proof.
  induction k as [|k IH]; intros a; cbn [seq map MandelbrotSphere.escape].
  - left. split; [reflexivity|]. intros j Hj. lia.
  - destruct (MandelbrotSphere.abs_gt_2 (orbit c a)) eqn:E.
    + right. exists a. repeat split; try lia. assumption.
    + specialize (IH (S a)). cbn [orbit] in IH.
      destruct IH as [[Hr Hall] | [j [Hj [Hr [Hesc Hbefore]]]]].
      * left. split; [exact Hr|]. intros j Hj.
        destruct (Nat.eq_dec j a) as [-> | Hne]; [exact E|].
        apply Hall. lia.
      * right. exists j. split; [lia|]. split; [exact Hr|].
        split; [exact Hesc|]. intros i Hi.
        destruct (Nat.eq_dec i a) as [-> | Hne]; [exact E|].
        apply Hbefore. lia.
Qed.

(** X3.  For [max_iter >= 0], [mandelbrot_iterations(c, max_iter)] is the
    first [n < max_iter] with [abs(z_n) > 2], where [z_0 = 0] and
    [z_(n+1) = z_n^2 + c], and [max_iter] when there is none.  It lies
    between 0 and [max_iter], and it is never 0 when [max_iter >= 1]: the
    first test is made on [z = 0]. *)
Theorem mandelbrot_iterations_first_escape
        (c : MandelbrotSphere.complex) (max_iter : Z) :
  0 <= max_iter ->
  let r := MandelbrotSphere.mandelbrot_iterations c max_iter in
  0 <= r <= max_iter
  /\ (forall j, (j < Z.to_nat r)%nat ->
                MandelbrotSphere.abs_gt_2 (orbit c j) = false)
  /\ (r < max_iter ->
      MandelbrotSphere.abs_gt_2 (orbit c (Z.to_nat r)) = true)
  /\ (1 <= max_iter -> 1 <= r).
Proof.
  intros Hm r.
  assert (H := escape_from c max_iter (Z.to_nat max_iter) 0).
  cbv zeta in H.
  assert (Hr0 : r = MandelbrotSphere.escape c max_iter
                      (map (fun j => 0 + Z.of_nat j)
                           (seq 0 (Z.to_nat max_iter))) (orbit c 0)).
  { unfold r, MandelbrotSphere.mandelbrot_iterations, range, py_range.
    now rewrite Z.sub_0_r. }
  rewrite <- Hr0 in H.
  destruct H as [[Hr Hall] | [j [Hj [Hr [Hesc Hbefore]]]]].
  - repeat split; try lia.
    intros j Hj. apply Hall. lia.
  - assert (Hj0 : j <> 0%nat).
    { intros ->. cbn in Hesc. discriminate. }
    repeat split; try lia.
    + intros i Hi. apply Hbefore. lia.
    + intros _. rewrite Hr, Nat2Z.id. exact Hesc.
Qed.

Lemma mandelbrot_iterations_first_escape_witness :
  0 <= 10
  /\ MandelbrotSphere.mandelbrot_iterations (2, 2)%Q 10 = 1
  /\ MandelbrotSphere.abs_gt_2 (orbit (2, 2)%Q 1) = true.
Proof.
  split; [lia|]. split; [reflexivity|].
  destruct (mandelbrot_iterations_first_escape (2, 2)%Q 10 ltac:(lia))
    as [_ [_ [Hesc _]]].
  apply Hesc. reflexivity.
Defined.

(** ** MandelbrotSphere at low density *)

Lemma no_escape_seen_up_to_one (c : MandelbrotSphere.complex) (m : Z) :
  m <= 1 -> (MandelbrotSphere.mandelbrot_iterations c m <? m) = false.
Proof.
  intros Hm. destruct (Z.eq_dec m 1) as [-> | Hne].
  - reflexivity.
  - unfold MandelbrotSphere.mandelbrot_iterations, range, py_range.
    replace (Z.to_nat (m - 0)) with 0%nat by lia. simpl. lia.
Qed.

Lemma py_int_below (x : Q) (k : Z) :
  0 <= k -> (x < inject_Z (k + 1))%Q -> py_int x <= k.
Proof.
  intros Hk Hx. unfold py_int. destruct (Qle_bool 0 x) eqn:E.
  - assert (Hlo := Qfloor_le x).
    assert (H : (inject_Z (Qfloor x) < inject_Z (k + 1))%Q)
      by (eapply Qle_lt_trans; eassumption).
    rewrite <- Zlt_Qlt in H. lia.
  - assert (Hneg : (x <= 0)%Q).
    { apply Qlt_le_weak, Qnot_le_lt. intros H.
      apply Qle_bool_iff in H. congruence. }
    apply Qceiling_resp_le in Hneg. change (Qceiling 0) with 0 in Hneg. lia.
Qed.

(** X4.  For every density below 0.04, [MandelbrotSphere.generate] gives an
    empty field: [max_iter] is at most 1, and with a single iteration the
    only test is made on [z = 0], so no sample is seen to escape. *)
Theorem mandelbrot_empty_below_two_iterations
        (self : PolarSpherePattern) (d : Q) :
  (d < 0.04)%Q ->
  py_int (d * 50) <= 1
  /\ points (MandelbrotSphere.generate self d) = []
  /\ colors (MandelbrotSphere.generate self d) = [].
Proof.
  intros Hd.
  assert (Hm : py_int (d * 50) <= 1).
  { apply py_int_below; [lia|].
    destruct d as [n m]. unfold Qlt, Qmult in *. cbn [Qnum Qden inject_Z] in *.
    rewrite Pos.mul_1_r. lia. }
  split; [exact Hm|].
  unfold MandelbrotSphere.generate.
  assert (Hgen : forall s,
             fold_left (MandelbrotSphere.sheet (py_int (d * 100))
                                               (py_int (d * 50)))
                       (range MandelbrotSphere.layers) s = s).
  { intros s. apply fold_left_unchanged. intros s1 layer.
    unfold MandelbrotSphere.sheet. apply fold_left_unchanged. intros s2 i.
    unfold MandelbrotSphere.row. apply fold_left_unchanged. intros s3 j.
    unfold MandelbrotSphere.cell.
    now rewrite no_escape_seen_up_to_one. }
  rewrite Hgen. split; reflexivity.
Qed.

Lemma mandelbrot_empty_below_two_iterations_witness :
  (0.03 < 0.04)%Q
  /\ py_int (0.03 * 50) = 1
  /\ points (MandelbrotSphere.generate MandelbrotSphere.init 0.03) = [].
Proof.
  split; [reflexivity|]. split; [reflexivity|].
  apply (mandelbrot_empty_below_two_iterations MandelbrotSphere.init 0.03).
  reflexivity.
Defined.

(** ** Bounds on the size of a field *)

(** A loop that grows the state by at most [c] per iteration. *)
Lemma fold_left_grows {S A : Type} (size : S -> nat) (f : S -> A -> S)
      (c : nat) (l : list A) (s : S) :
  (forall s' a, (size (f s' a) <= size s' + c)%nat) ->
  (size (fold_left f l s) <= size s + c * List.length l)%nat.
Proof.
  intros Hf. revert s. induction l as [|a l IH]; intros s; simpl.
  - lia.
  - specialize (IH (f s a)). specialize (Hf s a). nia.
Qed.

Lemma range_length_max (n : Z) :
  Z.of_nat (List.length (range n)) = Z.max 0 n.
Proof. rewrite range_length. lia. Qed.

(** X5.  [MandelbrotSphere.generate] keeps at most one point per grid cell
    and layer: the field has at most [3 * resolution^2] points, where
    [resolution = int(density * 100)] (no point when it is negative). *)
Theorem mandelbrot_point_count_bound (self : PolarSpherePattern) (d : Q) :
  let resolution := Z.max 0 (py_int (d * 100)) in
  0 <= get_point_count (MandelbrotSphere.generate self d)
    <= 3 * resolution * resolution.
Proof.
  intros resolution. unfold get_point_count, len. split; [lia|].
  unfold MandelbrotSphere.generate.
  set (res := py_int (d * 100)). set (m := py_int (d * 50)).
  set (size := fun s : PolarSpherePattern => List.length (points s)).
  assert (Hcell : forall layer i s j,
             (size (MandelbrotSphere.cell res m layer i s j) <= size s + 1)%nat).
  { intros layer i s j. unfold MandelbrotSphere.cell, size.
    match goal with |- context [if ?b then _ else _] => destruct b end.
    - unfold append_color, append_point. simpl. rewrite length_app. simpl. lia.
    - lia. }
  assert (Hrow : forall layer s i,
             (size (MandelbrotSphere.row res m layer s i)
              <= size s + List.length (range res))%nat).
  { intros layer s i. unfold MandelbrotSphere.row.
    assert (H := fold_left_grows size (MandelbrotSphere.cell res m layer i)
                                 1 (range res) s (Hcell layer i)). lia. }
  assert (Hsheet : forall s layer,
             (size (MandelbrotSphere.sheet res m s layer)
              <= size s + List.length (range res) * List.length (range res))%nat).
  { intros s layer. unfold MandelbrotSphere.sheet.
    apply (fold_left_grows size (MandelbrotSphere.row res m layer)
                           (List.length (range res)) (range res) s).
    intros s' i. apply Hrow. }
  assert (H := fold_left_grows size (MandelbrotSphere.sheet res m)
                 (List.length (range res) * List.length (range res))
                 (range MandelbrotSphere.layers)
                 (set_colors (set_points self []) []) Hsheet).
  change (List.length (range MandelbrotSphere.layers)) with 3%nat in H.
  change (size (set_colors (set_points self []) [])) with 0%nat in H.
  assert (Hlen := range_length_max res). fold resolution in Hlen.
  unfold size in H. nia.
Qed.

(** X6.  [LorenzAttractor.generate] appends at most one point per step of
    each of its three attractors: at most [3 * steps] points, where
    [steps = int(density * 5000)] (no point when it is negative). *)
Theorem lorenz_point_count_bound (self : PolarSpherePattern) (d : Q) :
  let steps := Z.max 0 (py_int (d * 5000)) in
  0 <= get_point_count (LorenzAttractor.generate self d) <= 3 * steps.
Proof.
  intros steps. unfold get_point_count, len. split; [lia|].
  unfold LorenzAttractor.generate.
  set (n := py_int (d * 5000)).
  set (size := fun s : PolarSpherePattern => List.length (points s)).
  assert (Hbody : forall attractor st i,
             (size (fst (LorenzAttractor.body attractor n st i))
              <= size (fst st) + 1)%nat).
  { intros attractor [s [[x y] z]] i. unfold LorenzAttractor.body, size.
    cbv zeta.
    match goal with |- context [Rlt_dec 0 ?m] => destruct (Rlt_dec 0 m) end.
    - unfold append_color, append_point. simpl. rewrite length_app. simpl. lia.
    - simpl. lia. }
  assert (Hrun : forall s attractor,
             (size (LorenzAttractor.attractor_run d s attractor)
              <= size s + List.length (range n))%nat).
  { intros s attractor. unfold LorenzAttractor.attractor_run. cbv zeta.
    fold n.
    match goal with
    | |- context [fold_left ?f ?l ?s0] =>
        assert (H := fold_left_grows (fun st => size (fst st)) f 1 l s0
                                     (Hbody attractor))
    end.
    cbv beta in H. cbn [fst] in H. rewrite Nat.mul_1_l in H. exact H. }
  assert (H := fold_left_grows size (LorenzAttractor.attractor_run d)
                 (List.length (range n)) (range LorenzAttractor.attractors)
                 (set_colors (set_points self []) []) Hrun).
  change (List.length (range LorenzAttractor.attractors)) with 3%nat in H.
  change (size (set_colors (set_points self []) [])) with 0%nat in H.
  assert (Hlen := range_length_max n). fold steps in Hlen.
  unfold size in H. nia.
Qed.

(** ** The Fibonacci lattice *)

Lemma fibonacci_points_map now n (l : list Z) (s : PolarSpherePattern) :
  points (fold_left (FibonacciSphere.body now n) l s)
  = points s ++ map (fibonacci_point n) l.
Proof.
  revert s. induction l as [|i l IH]; intros s; cbn [fold_left map].
  - now rewrite app_nil_r.
  - rewrite IH. unfold FibonacciSphere.body, append_color, append_point.
    cbn [points set_points set_colors]. now rewrite <- app_assoc.
Qed.

Lemma range_nth (n i : Z) :
  0 <= i < n -> nth_error (range n) (Z.to_nat i) = Some i.
Proof.
  intros Hi. unfold range, py_range.
  rewrite nth_error_map, nth_error_seq.
  destruct (Nat.ltb_spec (Z.to_nat i) (Z.to_nat (n - 0))); [|lia].
  simpl. f_equal. lia.
Qed.

(** X7.  The points of [FibonacciSphere.generate] come in the order of the
    index, at evenly spaced heights: point [i] of [n] has
    [z = 1 - 2 * i / n], and point 0 is the north pole [(0, 0, 1)]. *)
Theorem fibonacci_heights_evenly_spaced
        (now : Z -> R) (self : PolarSpherePattern) (d : Q) (i : Z) :
  let n := py_int (d * 10000) in
  0 <= i < n ->
  exists x y : R,
    nth_error (points (FibonacciSphere.generate now self d)) (Z.to_nat i)
    = Some (x, y, (1 - 2 * IZR i / IZR n)%R)
    /\ (i = 0 -> x = 0%R /\ y = 0%R).
Proof.
  intros n Hi. unfold FibonacciSphere.generate. fold n.
  rewrite fibonacci_points_map. cbn [points set_points set_colors app].
  rewrite nth_error_map, (range_nth n i Hi). cbn [option_map].
  unfold fibonacci_point. cbv zeta.
  set (h := (IZR (2 * i) / IZR n)%R).
  assert (Hn : (0 < IZR n)%R) by (apply IZR_lt; lia).
  assert (Hh : h = (2 * IZR i / IZR n)%R).
  { unfold h. now rewrite mult_IZR. }
  assert (Hq : (h * IZR n = IZR (2 * i))%R).
  { unfold h. field. lra. }
  assert (H0 : (0 <= IZR (2 * i))%R) by (apply IZR_le; lia).
  assert (H2 : (IZR (2 * i) <= 2 * IZR n)%R).
  { rewrite <- mult_IZR. apply IZR_le. lia. }
  assert (Hb : (-1 <= 1 - h <= 1)%R) by (split; nra).
  exists (sin (acos (1 - h))
          * cos (2 * PI * IZR i / FibonacciSphere.golden_ratio))%R,
         (sin (acos (1 - h))
          * sin (2 * PI * IZR i / FibonacciSphere.golden_ratio))%R.
  split.
  - rewrite (cos_acos _ Hb), Hh. reflexivity.
  - intros ->. unfold h. change (IZR (2 * 0)) with 0%R.
    replace (1 - 0 / IZR n)%R with 1%R by (unfold Rdiv; ring).
    rewrite acos_1, sin_0. split; ring.
Qed.

Lemma fibonacci_heights_evenly_spaced_witness :
  0 <= 0 < py_int (0.001 * 10000)
  /\ exists x y : R,
       nth_error (points (FibonacciSphere.generate
                            (fun _ => 0%R) FibonacciSphere.init 0.001)) 0
       = Some (x, y, (1 - 2 * IZR 0 / IZR 10)%R).
Proof.
  assert (H : 0 <= 0 < py_int (0.001 * 10000)) by (split; reflexivity).
  split; [exact H|].
  destruct (fibonacci_heights_evenly_spaced
              (fun _ => 0%R) FibonacciSphere.init 0.001 0 H)
    as [x [y [Hnth _]]].
  exists x, y. exact Hnth.
Defined.

(** ** The range of the colours *)

Lemma Rabs_unit (t : R) : (-1 <= t <= 1)%R -> (0 <= Rabs t <= 1)%R.
Proof.
  intros Ht. split; [apply Rabs_pos | apply Rabs_le; exact Ht].
Qed.

Lemma shade_unit (a x : R) :
  (0 <= a <= 1)%R -> (-1 <= x <= 1)%R -> (0 <= a * (x + 1) / 2 <= 1)%R.
Proof. intros Ha Hx. split; nra. Qed.

Lemma product_unit (s c : R) :
  (-1 <= s <= 1)%R -> (-1 <= c <= 1)%R -> (-1 <= s * c <= 1)%R.
Proof. intros Hs Hc. split; nra. Qed.

Lemma ratio_unit (i n : Z) :
  0 <= i < n -> (0 <= IZR i / IZR n <= 1)%R.
Proof.
  intros Hi.
  assert (Hn : (0 < IZR n)%R) by (apply IZR_lt; lia).
  assert (H0 : (0 <= IZR i)%R) by (apply IZR_le; lia).
  assert (H1 : (IZR i <= IZR n)%R) by (apply IZR_le; lia).
  assert (Hq : (IZR i / IZR n * IZR n = IZR i)%R) by (field; lra).
  split; nra.
Qed.

Lemma fibonacci_colours_valid now self d :
  Forall valid_color (colors (FibonacciSphere.generate now self d)).
Proof.
  unfold FibonacciSphere.generate.
  apply (fold_left_invariant (fun s => Forall valid_color (colors s))).
  - constructor.
  - intros s i _ Hs. unfold FibonacciSphere.body, append_color, append_point.
    cbn [colors set_colors set_points]. apply Forall_app.
    split; [exact Hs|]. constructor; [|constructor].
    unfold valid_color.
    set (theta := (2 * PI * IZR i / FibonacciSphere.golden_ratio)%R).
    set (phi := acos (1 - IZR (2 * i) / IZR (py_int (d * 10000)))).
    assert (Hx := product_unit _ _ (SIN_bound phi) (COS_bound theta)).
    assert (Hy := product_unit _ _ (SIN_bound phi) (SIN_bound theta)).
    assert (Hz := COS_bound phi).
    split; [|split; [|split]].
    + apply shade_unit; [apply Rabs_unit, SIN_bound | exact Hx].
    + apply shade_unit; [apply Rabs_unit, COS_bound | exact Hy].
    + apply shade_unit; [apply Rabs_unit, SIN_bound | exact Hz].
    + assert (H := SIN_bound (IZR i * 0.01)). lra.
Qed.

Lemma lorenz_colours_valid self d :
  Forall valid_color (colors (LorenzAttractor.generate self d)).
Proof.
  unfold LorenzAttractor.generate.
  apply (fold_left_invariant (fun s => Forall valid_color (colors s)));
    [constructor|].
  intros s attractor _ Hs. unfold LorenzAttractor.attractor_run. cbv zeta.
  apply (fold_left_invariant
           (fun st : LorenzAttractor.orbit =>
              Forall valid_color (colors (fst st)))); [exact Hs|].
  intros [s' [[x y] z]] i Hi Hs'. apply in_py_range in Hi.
  unfold LorenzAttractor.body. cbv zeta.
  match goal with |- context [Rlt_dec 0 ?m] => destruct (Rlt_dec 0 m) end;
    [|exact Hs'].
  unfold append_color, append_point. cbn [fst colors set_colors set_points].
  apply Forall_app. split; [exact Hs'|]. constructor; [|constructor].
  unfold valid_color.
  set (t := (IZR i / IZR (py_int (d * 5000)))%R).
  assert (Ht : (0 <= t <= 1)%R) by (apply ratio_unit; lia).
  set (hue := (IZR attractor / IZR LorenzAttractor.attractors)%R).
  split; [|split; [|split]].
  - apply Rabs_unit, product_unit; [lra | apply SIN_bound].
  - apply Rabs_unit, SIN_bound.
  - apply Rabs_unit, product_unit; [lra | apply COS_bound].
  - assert (H := SIN_bound (t * 4 * PI)). lra.
Qed.

Lemma prime_colours_valid self d :
  Forall valid_color (colors (PrimeSpiral.generate self d)).
Proof.
  unfold PrimeSpiral.generate.
  set (m := py_int (d * 20000)).
  apply (fold_left_invariant (fun s => Forall valid_color (colors s)));
    [constructor|].
  intros s [i p] Hin Hs.
  assert (Hp : prime p /\ p < m).
  { apply primes_upto_spec. unfold enumerate in Hin.
    eapply in_combine_r; eassumption. }
  destruct Hp as [Hp Hpm].
  assert (H2 : 2 <= p) by (apply prime_alt in Hp; destruct Hp; lia).
  unfold PrimeSpiral.body, append_color, append_point.
  cbn [colors set_colors set_points]. apply Forall_app.
  split; [exact Hs|]. constructor; [|constructor].
  unfold valid_color.
  assert (Hlp : (0 < ln (IZR p))%R).
  { rewrite <- ln_1. apply ln_increasing; [lra|]. apply IZR_lt. lia. }
  assert (Hlm : (ln (IZR p) < ln (IZR m))%R).
  { apply ln_increasing; [apply IZR_lt; lia | apply IZR_lt; lia]. }
  set (intensity := (ln (IZR p) / ln (IZR m))%R).
  assert (Hq : (intensity * ln (IZR m) = ln (IZR p))%R)
    by (unfold intensity; field; lra).
  assert (Hi : (0 <= intensity <= 1)%R) by (split; nra).
  assert (Hh := SIN_bound (IZR p * 0.01)).
  assert (Hc := COS_bound (IZR i * 0.001)).
  split; [|split; [|split]]; try lra.
  split; nra.
Qed.

(** X8.  Every colour that [FibonacciSphere.generate],
    [PrimeSpiral.generate] and [LorenzAttractor.generate] append has its
    four channels in [0, 1], for every density and every clock. *)
Theorem generated_colours_in_unit_range
        (now : Z -> R) (fibonacci spiral lorenz : PolarSpherePattern) (d : Q) :
  Forall valid_color (colors (FibonacciSphere.generate now fibonacci d))
  /\ Forall valid_color (colors (PrimeSpiral.generate spiral d))
  /\ Forall valid_color (colors (LorenzAttractor.generate lorenz d)).
Proof.
  split; [apply fibonacci_colours_valid|].
  split; [apply prime_colours_valid | apply lorenz_colours_valid].
Qed.

(** ** The result store *)

Section ResultStore.

Import BenchmarkResult.

Lemma contains_lookup (d : results) (key : string) :
  contains d key = false <-> lookup d key = None.
Proof.
  induction d as [|[k v] d IH]; simpl.
  - split; reflexivity.
  - destruct (String.eqb k key); simpl; [split; discriminate | exact IH].
Qed.

Lemma lookup_append_at (d : results) (key : string) (e : entry) :
  lookup (append_at d key e) key
  = option_map (fun l => l ++ [e]) (lookup d key).
Proof.
  induction d as [|[k v] d IH]; simpl; [reflexivity|].
  destruct (String.eqb k key) eqn:E; simpl; rewrite E; [reflexivity|].
  exact IH.
Qed.

Lemma lookup_append_at_other (d : results) (key other : string) (e : entry) :
  other <> key -> lookup (append_at d key e) other = lookup d other.
Proof.
  intros Hne. induction d as [|[k v] d IH]; simpl; [reflexivity|].
  destruct (String.eqb k key) eqn:E; simpl.
  - apply String.eqb_eq in E. subst k.
    destruct (String.eqb key other) eqn:E'; [|reflexivity].
    apply String.eqb_eq in E'. congruence.
  - destruct (String.eqb k other); [reflexivity | exact IH].
Qed.

Lemma lookup_new_key (d : results) (key other : string) :
  lookup (d ++ [(key, [])]) other
  = match lookup d other with
    | Some l => Some l
    | None => if String.eqb key other then Some [] else None
    end.
Proof.
  induction d as [|[k v] d IH]; simpl; [reflexivity|].
  destruct (String.eqb k other); [reflexivity | exact IH].
Qed.

Lemma add_result_same (s : t) (pattern_name : string)
      (d : Q) (p : Z) (f rt : Q) :
  lookup (pattern_results (add_result s pattern_name d p f rt)) pattern_name
  = Some (match lookup (pattern_results s) pattern_name with
          | Some l => l
          | None => []
          end ++ [mkEntry d p f (rt * 1000)]).
Proof.
  unfold add_result. cbn [pattern_results].
  destruct (contains (pattern_results s) pattern_name) eqn:E.
  - rewrite lookup_append_at.
    destruct (lookup (pattern_results s) pattern_name) eqn:L; [reflexivity|].
    apply contains_lookup in L. congruence.
  - apply contains_lookup in E.
    rewrite lookup_append_at, lookup_new_key, E, String.eqb_refl.
    reflexivity.
Qed.

Lemma add_result_other (s : t) (pattern_name other : string)
      (d : Q) (p : Z) (f rt : Q) :
  other <> pattern_name ->
  lookup (pattern_results (add_result s pattern_name d p f rt)) other
  = lookup (pattern_results s) other.
Proof.
  intros Hne. unfold add_result. cbn [pattern_results].
  rewrite lookup_append_at_other by assumption.
  destruct (contains (pattern_results s) pattern_name); [reflexivity|].
  rewrite lookup_new_key.
  destruct (lookup (pattern_results s) other); [reflexivity|].
  destruct (String.eqb pattern_name other) eqn:E'; [|reflexivity].
  apply String.eqb_eq in E'. congruence.
Qed.

(** X9.  [add_result] appends the record at the end of the list of its
    pattern (a new list when the pattern has none yet) and changes nothing
    else: the lists of the other patterns, [system_info] and [timestamp]
    are as before. *)
Theorem add_result_appends_to_its_pattern
        (s : t) (pattern_name : string) (d : Q) (p : Z) (f rt : Q) :
  let s' := add_result s pattern_name d p f rt in
  lookup (pattern_results s') pattern_name
  = Some (match lookup (pattern_results s) pattern_name with
          | Some l => l
          | None => []
          end ++ [mkEntry d p f (rt * 1000)])
  /\ (forall other, other <> pattern_name ->
        lookup (pattern_results s') other = lookup (pattern_results s) other)
  /\ system_info s' = system_info s
  /\ timestamp s' = timestamp s.
Proof.
  intros s'. unfold s', add_result. cbn [pattern_results system_info timestamp].
  destruct (contains (pattern_results s) pattern_name) eqn:E.
  - split; [|split; [|split; reflexivity]].
    + rewrite lookup_append_at.
      destruct (lookup (pattern_results s) pattern_name) eqn:L;
        [reflexivity|].
      apply contains_lookup in L. congruence.
    + intros other Hne. now apply lookup_append_at_other.
  - apply contains_lookup in E.
    split; [|split; [|split; reflexivity]].
    + rewrite lookup_append_at, lookup_new_key, E, String.eqb_refl.
      reflexivity.
    + intros other Hne. rewrite lookup_append_at_other by assumption.
      rewrite lookup_new_key.
      destruct (lookup (pattern_results s) other); [reflexivity|].
      destruct (String.eqb pattern_name other) eqn:E'; [|reflexivity].
      apply String.eqb_eq in E'. congruence.
Qed.

Lemma append_at_keys (d : results) (key : string) (e : entry) :
  map fst (append_at d key e) = map fst d.
Proof.
  induction d as [|[k v] d IH]; simpl; [reflexivity|].
  destruct (String.eqb k key); simpl; [reflexivity | now rewrite IH].
Qed.

Lemma append_at_nonempty (d : results) (key : string) (e : entry) :
  Forall (fun kv => snd kv <> []) d ->
  Forall (fun kv => snd kv <> []) (append_at d key e).
Proof.
  intros H. induction H as [|[k v] d Hkv Hd IH]; simpl; [constructor|].
  destruct (String.eqb k key).
  - constructor; [|exact Hd]. simpl. destruct v; discriminate.
  - constructor; assumption.
Qed.

Lemma append_at_new_key (d : results) (key : string) (v : list entry)
      (e : entry) :
  contains d key = false ->
  append_at (d ++ [(key, v)]) key e = d ++ [(key, v ++ [e])].
Proof.
  induction d as [|[k w] d IH]; simpl.
  - intros _. now rewrite String.eqb_refl.
  - destruct (String.eqb k key); simpl; [discriminate|].
    intros H. now rewrite IH.
Qed.

Lemma contains_false_not_key (d : results) (key : string) :
  contains d key = false -> ~ In key (map fst d).
Proof.
  induction d as [|[k w] d IH]; simpl; [tauto|].
  destruct (String.eqb k key) eqn:E; simpl; [discriminate|].
  intros H [Hk | Hin]; [|now apply IH].
  subst k. rewrite String.eqb_refl in E. discriminate.
Qed.

Lemma summary_patterns (d : results) :
  Forall (fun kv => snd kv <> []) d ->
  map line_pattern (flat_map summary_of d) = map fst d.
Proof.
  intros H. induction H as [|[k v] d Hkv Hd IH]; simpl; [reflexivity|].
  destruct v as [|r rest]; [now elim Hkv|].
  unfold summary_of at 1. simpl. now rewrite IH.
Qed.

(** X10.  The store keeps its keys distinct and never holds an empty list:
    [add_result] preserves both, puts a new pattern after the ones already
    there and leaves the order of the others alone; and on such a store
    [get_summary] has exactly one line per pattern, in the order in which
    the patterns were first recorded. *)
Theorem store_invariant_and_summary_order
        (s : t) (pattern_name : string) (d : Q) (p : Z) (f rt : Q) :
  well_kept (pattern_results s) ->
  well_kept (pattern_results (add_result s pattern_name d p f rt))
  /\ map fst (pattern_results (add_result s pattern_name d p f rt))
     = (if contains (pattern_results s) pattern_name
        then map fst (pattern_results s)
        else map fst (pattern_results s) ++ [pattern_name])
  /\ map line_pattern (get_summary s) = map fst (pattern_results s).
Proof.
  intros [Hnd Hne]. unfold add_result. cbn [pattern_results].
  split; [|split].
  - destruct (contains (pattern_results s) pattern_name) eqn:E.
    + split; [now rewrite append_at_keys | now apply append_at_nonempty].
    + rewrite append_at_new_key by assumption. split.
      * rewrite map_app. simpl. apply NoDup_app; [assumption | |].
        -- constructor; [tauto | constructor].
        -- intros a Ha [<- | []].
           revert Ha. now apply contains_false_not_key.
      * apply Forall_app. split; [assumption|].
        constructor; [discriminate | constructor].
  - destruct (contains (pattern_results s) pattern_name) eqn:E.
    + apply append_at_keys.
    + rewrite append_at_keys, map_app. reflexivity.
  - rewrite get_summary_lines. now apply summary_patterns.
Qed.

Lemma store_invariant_and_summary_order_witness :
  well_kept (pattern_results (init "t"))
  /\ well_kept (pattern_results
                  (add_result (init "t") "Prime Spiral" 0.5 1229 60 0.01))
  /\ map fst (pattern_results
                (add_result (init "t") "Prime Spiral" 0.5 1229 60 0.01))
     = ["Prime Spiral"%string].
Proof.
  assert (H0 : well_kept (pattern_results (init "t"))).
  { split; constructor. }
  split; [exact H0|].
  destruct (store_invariant_and_summary_order
              (init "t") "Prime Spiral" 0.5 1229 60 0.01 H0) as [H1 [H2 _]].
  split; [exact H1 | exact H2].
Defined.

End ResultStore.

(** ** The forces of the gravity step *)

Lemma vec_sum_store (l : list vec3) (k : nat) (old new : vec3) :
  nth_error l k = Some old ->
  vec_add (vec_sum (store l k new)) old = vec_add (vec_sum l) new.
Proof.
  revert k. induction l as [|v l IH]; intros [|k] H; simpl in H;
    try discriminate.
  - injection H as ->. simpl.
    destruct old as [[a b] c], new as [[x y] z], (vec_sum l) as [[p q] r].
    simpl. f_equal; [f_equal|]; ring.
  - simpl. specialize (IH k H).
    destruct old as [[a b] c], new as [[x y] z], v as [[v1 v2] v3],
      (vec_sum l) as [[p q] r], (vec_sum (store l k (x, y, z))) as [[p' q'] r'].
    simpl in *. injection IH as H1 H2 H3.
    f_equal; [f_equal|]; lra.
Qed.

Lemma add_then_sub_force (f f1 f2 : list vec3) (i j : Z) (d : vec3) :
  ParticleSystem.add_force f i d = Some f1 ->
  ParticleSystem.sub_force f1 j d = Some f2 ->
  vec_sum f2 = vec_sum f.
Proof.
  unfold ParticleSystem.add_force, ParticleSystem.sub_force, bind.
  destruct (item f i) as [[[fx fy] fz]|] eqn:Ei; [|discriminate].
  destruct d as [[ax ay] az]. intros H1. injection H1 as <-.
  destruct (item (store f (Z.to_nat i) _) j) as [[[gx gy] gz]|] eqn:Ej;
    [|discriminate].
  intros H2. injection H2 as <-.
  assert (A := vec_sum_store f (Z.to_nat i) _
                 ((fx + ax)%R, (fy + ay)%R, (fz + az)%R) Ei).
  assert (B := vec_sum_store _ (Z.to_nat j) _
                 ((gx - ax)%R, (gy - ay)%R, (gz - az)%R) Ej).
  destruct (vec_sum f) as [[p q] r].
  destruct (vec_sum (store f (Z.to_nat i) _)) as [[p1 q1] r1].
  destruct (vec_sum (store (store f (Z.to_nat i) _) (Z.to_nat j) _))
    as [[p2 q2] r2].
  simpl in A, B. injection A as A1 A2 A3. injection B as B1 B2 B3.
  f_equal; [f_equal|]; lra.
Qed.

Lemma pair_force_net (self : PolarSpherePattern) (i j : Z)
      (f f' : list vec3) :
  ParticleSystem.pair_force self i (Some f) j = Some f' ->
  vec_sum f' = vec_sum f.
Proof.
  unfold ParticleSystem.pair_force, bind.
  destruct (item (points self) i) as [[[x1 y1] z1]|]; [|discriminate].
  destruct (item (points self) j) as [[[x2 y2] z2]|]; [|discriminate].
  destruct (masses self) as [ms|]; [|discriminate].
  destruct (item ms i) as [mi|]; [|discriminate].
  destruct (item ms j) as [mj|]; [|discriminate].
  destruct (fdiv _ _) as [fm|]; [|discriminate].
  destruct (fdiv _ _) as [ux|]; [|discriminate].
  destruct (fdiv _ _) as [uy|]; [|discriminate].
  destruct (fdiv _ _) as [uz|]; [|discriminate].
  destruct (ParticleSystem.add_force f i _) as [f1|] eqn:E1; [|discriminate].
  intros E2. eapply add_then_sub_force; eassumption.
Qed.

Lemma vec_sum_zeros {A : Type} (l : list A) :
  vec_sum (map (fun _ => (0, 0, 0)%R) l) = (0, 0, 0)%R.
Proof.
  induction l as [|a l IH]; simpl; [reflexivity|].
  rewrite IH. simpl. f_equal; [f_equal|]; ring.
Qed.

(** X11.  The forces that [update_physics] accumulates cancel out: each
    pair adds to one particle what it takes from the other, so whenever the
    force loops complete, the sum of all the force vectors is zero. *)
Theorem net_force_is_zero
        (self : PolarSpherePattern) (n : Z) (forces : list vec3) :
  ParticleSystem.compute_forces self n = Some forces ->
  vec_sum forces = (0, 0, 0)%R.
Proof.
  unfold ParticleSystem.compute_forces.
  set (P := fun acc : option (list vec3) =>
              forall f, acc = Some f -> vec_sum f = (0, 0, 0)%R).
  assert (H : P (fold_left (ParticleSystem.row_forces self n) (range n)
                           (Some (map (fun _ => (0, 0, 0)%R) (range n))))).
  { apply fold_left_invariant.
    - intros f Hf. injection Hf as <-. apply vec_sum_zeros.
    - intros acc i _ Hacc. unfold ParticleSystem.row_forces.
      apply fold_left_invariant; [exact Hacc|].
      intros acc' j _ Hacc' f' Hf'.
      destruct acc' as [f|]; [|discriminate].
      rewrite (pair_force_net self i j f f' Hf'). now apply Hacc'. }
  intros Hf. now apply H.
Qed.

Lemma net_force_is_zero_witness :
  exists forces,
    ParticleSystem.compute_forces two_particles 2 = Some forces
    /\ vec_sum forces = (0, 0, 0)%R.
Proof.
  assert (Hwf : well_formed two_particles [(0, 0, 0); (0, 0, 0)]%R [1; 1]%R).
  { unfold well_formed. repeat split.
    repeat constructor; apply R1_neq_R0. }
  destruct (compute_forces_some two_particles _ _ Hwf) as [forces [Hf _]].
  exists forces. split; [exact Hf|].
  exact (net_force_is_zero two_particles 2 forces Hf).
Defined.

(** ** The gravity step at the edges *)

Lemma integrate_none dt forces (l : list Z) :
  fold_left (ParticleSystem.integrate dt forces) l None = None.
Proof. induction l as [|i l IH]; simpl; [reflexivity | exact IH]. Qed.

Lemma integrate_without_attributes dt forces self i :
  velocities self = None \/ masses self = None ->
  ParticleSystem.integrate dt forces (Some self) i = None.
Proof.
  intros H. unfold ParticleSystem.integrate, bind.
  destruct (velocities self) as [vs|] eqn:Ev; [|reflexivity].
  destruct H as [H | H]; [discriminate|].
  destruct (item vs i); [|reflexivity].
  destruct (item forces i); [|reflexivity].
  now rewrite H.
Qed.

(** X12.  On an object that lacks [velocities] or [masses] -- such as the
    one the constructor of [ParticleSystem] builds -- [update_physics]
    returns, leaving the object as it is, when there is no point, and
    raises as soon as there is one. *)
Theorem update_physics_without_attributes
        (dt : R) (self : PolarSpherePattern) :
  velocities self = None \/ masses self = None ->
  ParticleSystem.update_physics dt self
  = match points self with
    | [] => Some self
    | _ :: _ => None
    end.
Proof.
  intros H. unfold ParticleSystem.update_physics.
  destruct (points self) as [|p ps] eqn:Ep.
  - reflexivity.
  - destruct (ParticleSystem.compute_forces self (len (p :: ps)))
      as [forces|]; [|reflexivity].
    cbn [bind]. unfold range.
    rewrite (py_range_cons 0 (len (p :: ps))) by (unfold len; simpl; lia).
    cbn [fold_left]. rewrite integrate_without_attributes by exact H.
    apply integrate_none.
Qed.

Lemma update_physics_without_attributes_witness :
  (velocities ParticleSystem.init = None \/ masses ParticleSystem.init = None)
  /\ ParticleSystem.update_physics ParticleSystem.default_dt
                                   ParticleSystem.init
     = Some ParticleSystem.init
  /\ ParticleSystem.update_physics ParticleSystem.default_dt
       (set_points ParticleSystem.init [(1, 0, 0)%R])
     = None.
Proof.
  split; [left; reflexivity|]. split.
  - exact (update_physics_without_attributes
             ParticleSystem.default_dt ParticleSystem.init
             (or_introl eq_refl)).
  - exact (update_physics_without_attributes
             ParticleSystem.default_dt
             (set_points ParticleSystem.init [(1, 0, 0)%R])
             (or_introl eq_refl)).
Defined.

(** What one pass of the second loop leaves alone. *)
Lemma integrate_keeps dt forces (l : list Z) :
  forall s s',
    fold_left (ParticleSystem.integrate dt forces) l (Some s) = Some s' ->
    cls s' = cls s /\ name s' = name s /\ description s' = description s
    /\ colors s' = colors s /\ masses s' = masses s
    /\ List.length (points s') = List.length (points s).
Proof.
  induction l as [|i l IH]; intros s s'; cbn [fold_left].
  - intros H. injection H as <-. repeat split.
  - destruct (ParticleSystem.integrate dt forces (Some s) i) as [s1|] eqn:E;
      [|now rewrite integrate_none].
    intros H. apply IH in H. clear IH.
    unfold ParticleSystem.integrate, bind in E.
    destruct (velocities s) as [vs|]; [|discriminate].
    destruct (item vs i) as [v|]; [|discriminate].
    destruct (item forces i) as [f|]; [|discriminate].
    destruct (masses s) as [ms|] eqn:Em; [|discriminate].
    destruct (item ms i) as [m|]; [|discriminate].
    destruct (ParticleSystem.kick dt v f m) as [v'|]; [|discriminate].
    cbn [points set_velocities] in E.
    destruct (item (points s) i) as [p|]; [|discriminate].
    injection E as <-.
    cbn [cls name description colors masses points set_points set_velocities]
      in H.
    rewrite store_length in H. rewrite Em in H. exact H.
Qed.

Lemma update_physics_keeps (dt : R) (self self' : PolarSpherePattern) :
  ParticleSystem.update_physics dt self = Some self' ->
  cls self' = cls self /\ name self' = name self
  /\ description self' = description self
  /\ colors self' = colors self /\ masses self' = masses self
  /\ List.length (points self') = List.length (points self).
Proof.
  unfold ParticleSystem.update_physics, bind.
  destruct (ParticleSystem.compute_forces self (len (points self)))
    as [forces|]; [|discriminate].
  apply integrate_keeps.
Qed.

(** X13.  Whenever [update_physics] returns, the class, name, description,
    colours and masses of the object and the number of its points are as
    before the call: only positions and velocities are written. *)
Theorem update_physics_writes_positions_and_velocities_only
        (dt : R) (self self' : PolarSpherePattern) :
  ParticleSystem.update_physics dt self = Some self' ->
  cls self' = cls self /\ name self' = name self
  /\ description self' = description self
  /\ colors self' = colors self /\ masses self' = masses self
  /\ List.length (points self') = List.length (points self).
Proof. exact (update_physics_keeps dt self self'). Qed.

Lemma update_physics_writes_positions_and_velocities_only_witness :
  exists self',
    ParticleSystem.update_physics ParticleSystem.default_dt two_particles
    = Some self'
    /\ colors self' = colors two_particles
    /\ name self' = name two_particles.
Proof.
  assert (Hwf : well_formed two_particles [(0, 0, 0); (0, 0, 0)]%R [1; 1]%R).
  { unfold well_formed. repeat split.
    repeat constructor; apply R1_neq_R0. }
  destruct (compute_forces_some two_particles _ _ Hwf) as [forces [Hf Hlf]].
  destruct (integrate_fold ParticleSystem.default_dt forces [1; 1]%R
              (range (len (points two_particles))) two_particles
              [(0, 0, 0); (0, 0, 0)]%R Hwf Hlf (py_range_NoDup _ _))
    as [self' [vs' [Hfold _]]].
  { intros i Hi. now apply in_py_range in Hi. }
  assert (Hrun : ParticleSystem.update_physics ParticleSystem.default_dt
                                               two_particles = Some self').
  { unfold ParticleSystem.update_physics. rewrite Hf. exact Hfold. }
  exists self'. split; [exact Hrun|].
  destruct (update_physics_writes_positions_and_velocities_only
              ParticleSystem.default_dt two_particles self' Hrun)
    as [_ [Hn [_ [Hc _]]]].
  split; [exact Hc | exact Hn].
Defined.

(** ** The vertices of a frame *)

Lemma vertices_counted (now : Z -> R) (l : list (Z * (vec3 * color4))) :
  vertex_calls (flat_map (fun ipc => vertex (now (fst ipc)) ipc) l)
  = List.length l.
Proof.
  unfold vertex_calls.
  induction l as [|[i [[[x y] z] [[[r g] b] a]]] l IH]; simpl;
    [reflexivity | now rewrite IH].
Qed.

Lemma vertex_calls_app (l1 l2 : list gl_call) :
  vertex_calls (l1 ++ l2) = (vertex_calls l1 + vertex_calls l2)%nat.
Proof. unfold vertex_calls. now rewrite filter_app, length_app. Qed.

Lemma draw_immediate_vertices now pattern :
  vertex_calls (draw_immediate now pattern)
  = (3 * Nat.min (List.length (points pattern))
                 (List.length (colors pattern)))%nat.
Proof.
  rewrite draw_immediate_blocks. cbv zeta.
  set (l := enumerate (combine (points pattern) (colors pattern))).
  assert (Hl : List.length l
               = Nat.min (List.length (points pattern))
                         (List.length (colors pattern))).
  { unfold l. now rewrite enumerate_length, length_combine. }
  rewrite !vertex_calls_app, !vertices_counted, Hl.
  change (vertex_calls [glPointSize 1.0; glBegin]) with 0%nat.
  change (vertex_calls [glPointSize 2.0; glBegin]) with 0%nat.
  change (vertex_calls [glPointSize 3.0; glBegin]) with 0%nat.
  change (vertex_calls [glEnd]) with 0%nat.
  change (vertex_calls []) with 0%nat. lia.
Qed.

(** X14.  In a frame drawn point by point (at most 50000 points), each of
    the three passes submits as many vertices as there are
    (position, colour) pairs: [3 * min(len(points), len(colors))] calls of
    [glVertex3f], so a position without a colour is not drawn.  In a frame
    drawn from arrays, no vertex is submitted one by one, and the buffers
    handed over are the whole [points] and [colors], drawn with the count
    [len(points)]. *)
Theorem frame_vertex_submission
        (now : Z -> Z -> R) (rotation : Q)
        (pattern pattern' : PolarSpherePattern) (calls : list gl_call) :
  render_pattern now rotation pattern = Some (pattern', calls) ->
  let N := len (points pattern') in
  (N <= 50000 ->
   Z.of_nat (vertex_calls calls)
   = 3 * Z.min (len (points pattern')) (len (colors pattern')))
  /\ (N > 50000 ->
      vertex_calls calls = 0%nat
      /\ In (glVertexPointer (points pattern')) calls
      /\ In (glColorPointer (colors pattern')) calls
      /\ In (glDrawArrays 0 N) calls).
Proof.
  unfold render_pattern. intros H.
  destruct (match cls pattern with
            | ClsParticleSystem =>
                ParticleSystem.update_physics ParticleSystem.default_dt pattern
            | _ => Some pattern
            end) as [p|]; [|discriminate].
  unfold bind in H. injection H as <- <-.
  set (N := len (points p)). unfold threshold.
  split; intros HN.
  - destruct (N >? 50000) eqn:E; [lia|].
    unfold vertex_calls. cbn [filter is_vertex].
    rewrite filter_app, length_app. cbn [filter is_vertex List.length].
    fold (vertex_calls (draw_immediate now p)).
    rewrite draw_immediate_vertices. unfold N, len. lia.
  - destruct (N >? 50000) eqn:E; [|lia].
    split; [|split; [|split]].
    + unfold vertex_calls. cbn [filter is_vertex].
      rewrite filter_app, length_app. reflexivity.
    + cbn [In]. do 6 right. apply in_or_app. left.
      unfold draw_arrays. cbn [In app]. tauto.
    + cbn [In]. do 6 right. apply in_or_app. left.
      unfold draw_arrays. cbn [In app]. tauto.
    + cbn [In]. do 6 right. apply in_or_app. left.
      unfold draw_arrays, point_sizes. cbn [In app flat_map]. tauto.
Qed.

Lemma frame_vertex_submission_witness :
  let pattern :=
    set_colors (set_points FibonacciSphere.init
                           [(1, 0, 0); (0, 1, 0); (0, 0, 1)]%R)
               [(1, 0, 0, 1); (0, 1, 0, 1)]%R in
  exists calls,
    render_pattern (fun _ _ => 0%R) 0 pattern = Some (pattern, calls)
    /\ Z.of_nat (vertex_calls calls) = 6.
Proof.
  intros pattern. eexists. split; [reflexivity|].
  destruct (frame_vertex_submission
              (fun _ _ => 0%R) 0 pattern pattern _ eq_refl) as [H _].
  apply H. unfold pattern, len. simpl. lia.
Defined.

(** ** The accounts of the render loop *)

Lemma render_loop_accounts
      (duration : Q) (ps : list pass) (v : loop_vars) (st : state) :
  let x := render_loop duration ps v st in
  frames v <= frames (exit_vars x) <= frames v + len ps
  /\ (rotation (self (exit_state x))
      == rotation (self st) + inject_Z (frames (exit_vars x) - frames v))%Q
  /\ exists sent,
       display (outside (exit_state x)) = display (outside st) ++ sent.
Proof.
  revert v st. induction ps as [|p ps IH]; intros v st; cbn [render_loop].
  - cbn. rewrite Z.sub_diag. split; [unfold len; simpl; lia|].
    split; [ring|]. exists []. now rewrite app_nil_r.
  - assert (Hstay :
              frames v <= frames v <= frames v + len (p :: ps)
              /\ (rotation (self st)
                  == rotation (self st) + inject_Z (frames v - frames v))%Q
              /\ exists sent,
                   display (outside st) = display (outside st) ++ sent).
    { rewrite Z.sub_diag. split; [unfold len; simpl; lia|].
      split; [ring|]. exists []. now rewrite app_nil_r. }
    destruct (Qltb (since_start p) duration); [|exact Hstay].
    destruct (what p) as [|rt now|]; [exact Hstay | | exact Hstay].
    destruct (render_pattern now (rotation (self st)) (pattern_now v))
      as [[pattern calls]|]; [|exact Hstay].
    specialize (IH (mkLoop pattern (frames v + 1)
                           (total_render_time v + rt)%Q)
                   (mkState
                      (set_rotation (self st) (rotation (self st) + 1.0)%Q)
                      (send (outside st) calls))).
    cbv zeta in IH. cbv zeta.
    set (x := render_loop duration ps _ _) in *.
    cbn [frames self outside rotation set_rotation display send] in IH.
    destruct IH as [Hf [Hr [sent Hs]]].
    split; [unfold len in *; cbn [List.length] in *; lia|]. split.
    + rewrite Hr.
      replace (frames (exit_vars x) - frames v)
        with ((frames (exit_vars x) - (frames v + 1)) + 1) by lia.
      rewrite inject_Z_plus. ring.
    + exists (calls ++ sent). rewrite Hs. now rewrite app_assoc.
Qed.


(** ** What the driver records *)

Lemma add_result_sound (r : BenchmarkResult.t) (pattern_name : string)
      (d : Q) (p : Z) (f rt : Q) :
  sound_store r -> 1 <= p -> (0 <= f)%Q ->
  sound_store (BenchmarkResult.add_result r pattern_name d p f rt).
Proof.
  unfold sound_store, BenchmarkResult.add_result.
  cbn [BenchmarkResult.pattern_results].
  intros Hr Hp Hf.
  set (e := BenchmarkResult.mkEntry d p f (rt * 1000)).
  assert (He : sound_entry e) by (split; assumption).
  assert (Happ : forall dct,
             Forall (fun kv => Forall sound_entry (snd kv)) dct ->
             Forall (fun kv => Forall sound_entry (snd kv))
                    (BenchmarkResult.append_at dct pattern_name e)).
  { intros dct H. induction H as [|[k v] dct Hkv Hd IH]; simpl;
      [constructor|].
    destruct (String.eqb k pattern_name).
    - constructor; [|exact Hd]. simpl. apply Forall_app.
      split; [exact Hkv | constructor; [exact He | constructor]].
    - constructor; assumption. }
  apply Happ.
  destruct (BenchmarkResult.contains _ _); [exact Hr|].
  apply Forall_app. split; [exact Hr|].
  constructor; [constructor | constructor].
Qed.

Lemma fps_not_negative (frames_done : Z) (el : Q) :
  0 <= frames_done ->
  (0 <= (if Qltb 0 el then inject_Z frames_done / el else 0))%Q.
Proof.
  intros Hf. unfold Qltb. destruct (Qle_bool el 0) eqn:E; simpl.
  - apply Qle_refl.
  - assert (Hel : (0 < el)%Q).
    { apply Qnot_le_lt. intros H. apply Qle_bool_iff in H. congruence. }
    unfold Qdiv. apply Qmult_le_0_compat.
    + change 0%Q with (inject_Z 0). now rewrite <- Zle_Qle.
    + apply Qinv_le_0_compat. now apply Qlt_le_weak.
Qed.

Lemma benchmark_pattern_sound tests duration densities :
  forall k pattern st,
    sound_store (result (self st)) ->
    sound_store
      (result (self (final_state
                       (benchmark_pattern tests k pattern densities
                                          duration st)))).
Proof.
  induction densities as [|density rest IH]; intros k pattern st Hst.
  - exact Hst.
  - rewrite benchmark_pattern_step. cbv zeta.
    set (p := generate (gen_clock (tests k)) pattern density).
    destruct (get_point_count p =? 0) eqn:Ec; [now apply IH|].
    assert (Hcount : 1 <= get_point_count p).
    { apply Z.eqb_neq in Ec. unfold get_point_count, len in *. lia. }
    destruct (render_loop_keeps duration (passes (tests k)) (mkLoop p 0 0) st)
      as [_ [Hr _]].
    destruct (render_loop_accounts duration (passes (tests k))
                                   (mkLoop p 0 0) st) as [[Hf _] _].
    destruct (render_loop duration (passes (tests k)) (mkLoop p 0 0) st)
      as [v st' | v st' | v st']; cbn [exit_state exit_vars frames] in Hr, Hf.
    + apply IH. unfold record_result. cbn [self result set_result].
      rewrite Hr. apply add_result_sound; [exact Hst | exact Hcount |].
      now apply fps_not_negative.
    + cbn [final_state]. now rewrite Hr.
    + cbn [final_state]. now rewrite Hr.
Qed.

Lemma sweep_sound env densities duration todo :
  forall k st,
    sound_store (result (self st)) ->
    sound_store
      (result (self (final_state (sweep env k todo densities duration st)))).
Proof.
  induction todo as [|pattern rest IH]; intros k st Hst.
  - exact Hst.
  - cbn [sweep].
    assert (H := benchmark_pattern_sound (test env k) duration densities
                                         O pattern st Hst).
    destruct (benchmark_pattern (test env k) O pattern densities duration st)
      as [[finished p] st' | st']; cbn [final_state] in H; [|exact H].
    destruct finished; [apply IH|]; exact H.
Qed.

(** X16.  Whatever the environment and the command line, every record in
    the store at the end of [main] has at least one point and a frame rate
    that is not negative: a density that generates no point leaves no
    record, and no frame rate is computed over a zero or negative
    elapsed time. *)
Theorem main_records_are_sound
        (env : environment) (stamp : string) (args : arguments) (w : world) :
  sound_store (result (self (snd (main env stamp args w)))).
Proof.
  unfold main, run_benchmark, run_body, init_pygame.
  set (st0 := mkState (configure stamp args) w).
  assert (H0 : sound_store (result (self st0))).
  { unfold st0, configure, init. destruct (arg_pattern args); constructor. }
  destruct (setup_fails env); [exact H0|].
  match goal with
  | |- context [sweep env O ?ps ?ds ?du ?s] =>
      assert (H := sweep_sound env ds du ps O s H0);
      destruct (sweep env O ps ds du s) as [b st' | st']
  end; exact H.
Qed.

(** ** The records of the other patterns *)

Lemma render_pattern_keeps_name now rotation pattern pattern' calls :
  render_pattern now rotation pattern = Some (pattern', calls) ->
  name pattern' = name pattern /\ cls pattern' = cls pattern.
Proof.
  unfold render_pattern, bind.
  destruct (cls pattern) eqn:Ec;
    try (intros H; injection H as <- _; split; [reflexivity | congruence]).
  destruct (ParticleSystem.update_physics ParticleSystem.default_dt pattern)
    as [p|] eqn:E; [|discriminate].
  intros H. injection H as <- _.
  destruct (update_physics_keeps _ _ _ E) as [H1 [H2 _]].
  split; congruence.
Qed.

Lemma render_loop_keeps_name duration ps :
  forall v st,
    name (pattern_now (exit_vars (render_loop duration ps v st)))
    = name (pattern_now v)
    /\ cls (pattern_now (exit_vars (render_loop duration ps v st)))
       = cls (pattern_now v).
Proof.
  induction ps as [|p ps IH]; intros v st; cbn [render_loop].
  - split; reflexivity.
  - destruct (Qltb (since_start p) duration); [|split; reflexivity].
    destruct (what p) as [|rt now|]; try (split; reflexivity).
    destruct (render_pattern now (rotation (self st)) (pattern_now v))
      as [[pattern calls]|] eqn:E; [|split; reflexivity].
    destruct (render_pattern_keeps_name _ _ _ _ _ E) as [Hn Hc].
    destruct (IH (mkLoop pattern (frames v + 1)
                         (total_render_time v + rt)%Q)
                 (mkState
                    (set_rotation (self st) (rotation (self st) + 1.0)%Q)
                    (send (outside st) calls))) as [H1 H2].
    cbn [pattern_now] in H1, H2. split; congruence.
Qed.

Lemma benchmark_pattern_other_records tests duration other densities :
  forall k pattern st,
    other <> name pattern ->
    BenchmarkResult.lookup
      (BenchmarkResult.pattern_results
         (result (self (final_state
                          (benchmark_pattern tests k pattern densities
                                             duration st))))) other
    = BenchmarkResult.lookup
        (BenchmarkResult.pattern_results (result (self st))) other.
Proof.
  induction densities as [|density rest IH]; intros k pattern st Hne.
  - reflexivity.
  - rewrite benchmark_pattern_step. cbv zeta.
    destruct (generate_paired (gen_clock (tests k)) pattern density)
      as [_ [_ [Hname _]]].
    set (p := generate (gen_clock (tests k)) pattern density) in *.
    destruct (get_point_count p =? 0);
      [apply IH; now rewrite Hname|].
    destruct (render_loop_keeps duration (passes (tests k)) (mkLoop p 0 0) st)
      as [_ [Hr _]].
    destruct (render_loop_keeps_name duration (passes (tests k))
                                     (mkLoop p 0 0) st) as [Hn _].
    destruct (render_loop duration (passes (tests k)) (mkLoop p 0 0) st)
      as [v st' | v st' | v st'];
      cbn [exit_state exit_vars pattern_now] in Hr, Hn;
      cbn [final_state]; try (now rewrite Hr).
    rewrite IH by (rewrite Hn, Hname; exact Hne).
    unfold record_result. cbn [self result set_result].
    rewrite add_result_other by (rewrite Hname; exact Hne).
    now rewrite Hr.
Qed.

(** X17.  [benchmark_pattern] records under the name of its pattern only:
    however the call ends, the records of every other pattern name are as
    they were before the call. *)
Theorem benchmark_pattern_records_under_its_name
        (tests : nat -> test_env) (k : nat) (pattern : PolarSpherePattern)
        (densities : list Q) (duration : Q) (st : state) (other : string) :
  other <> name pattern ->
  BenchmarkResult.lookup
    (BenchmarkResult.pattern_results
       (result (self (final_state
                        (benchmark_pattern tests k pattern densities
                                           duration st))))) other
  = BenchmarkResult.lookup
      (BenchmarkResult.pattern_results (result (self st))) other.
Proof. apply benchmark_pattern_other_records. Qed.

Lemma benchmark_pattern_records_under_its_name_witness :
  "Prime Spiral"%string <> name FibonacciSphere.init
  /\ BenchmarkResult.lookup
       (BenchmarkResult.pattern_results
          (result (self (final_state
                           (benchmark_pattern (test quit_env 0) O
                              FibonacciSphere.init [0.001; 0.002]%Q 3.0
                              quit_ready)))))
       "Prime Spiral"
     = None.
Proof.
  assert (H : "Prime Spiral"%string <> name FibonacciSphere.init)
    by discriminate.
  split; [exact H|].
  exact (benchmark_pattern_records_under_its_name
           (test quit_env 0) O FibonacciSphere.init [0.001; 0.002]%Q 3.0
           quit_ready "Prime Spiral" H).
Defined.

(** ** Runs without a graphics failure *)






(** ** The order of the records *)

(** X19.  One call of [benchmark_pattern] only appends to the records of
    its pattern.  The records stored under the pattern's name before the
    call are kept as a prefix, and the densities of the appended records are
    densities of the sweep, in the order of the sweep and each at most as
    often as the sweep lists it. *)
Theorem records_appended_in_sweep_order
      (tests : nat -> test_env) (duration : Q) (densities : list Q)
      (k : nat) (pattern : PolarSpherePattern) (st : state) :
  exists new,
    records_of (result (self (final_state
                                (benchmark_pattern tests k pattern densities
                                                   duration st))))
               (name pattern)
    = records_of (result (self st)) (name pattern) ++ new
    /\ subsequence (map BenchmarkResult.density new) densities.
Proof.
  revert k pattern st.
  induction densities as [|density rest IH]; intros k pattern st.
  - exists []. split; [now rewrite app_nil_r | constructor].
  - rewrite benchmark_pattern_step. cbv zeta.
    destruct (generate_paired (gen_clock (tests k)) pattern density)
      as [_ [_ [Hname _]]].
    set (p := generate (gen_clock (tests k)) pattern density) in *.
    destruct (get_point_count p =? 0).
    { destruct (IH (S k) p st) as [new [Hnew Hsub]]. rewrite Hname in Hnew.
      exists new. split; [exact Hnew | now constructor]. }
    destruct (render_loop_keeps duration (passes (tests k)) (mkLoop p 0 0) st)
      as [_ [Hr _]].
    destruct (render_loop_keeps_name duration (passes (tests k))
                                     (mkLoop p 0 0) st) as [Hn _].
    destruct (render_loop duration (passes (tests k)) (mkLoop p 0 0) st)
      as [v st' | v st' | v st'];
      cbn [exit_state exit_vars pattern_now] in Hr, Hn; cbn [final_state].
    + rewrite <- Hname.
      match goal with
      | |- context [benchmark_pattern tests (S k) (pattern_now v) rest
                                      duration ?s] =>
          destruct (IH (S k) (pattern_now v) s) as [new [Hnew Hsub]]
      end.
      rewrite Hn in Hnew. rewrite Hnew.
      unfold record_result, records_of at 1. cbn [self result set_result].
      rewrite add_result_same, Hr.
      fold (records_of (result (self st)) (name p)).
      eexists. rewrite <- app_assoc. split; [reflexivity|].
      cbn [app map BenchmarkResult.density]. now constructor.
    + exists []. rewrite Hr, app_nil_r. split; [reflexivity | constructor].
    + exists []. rewrite Hr, app_nil_r. split; [reflexivity | constructor].
Qed.

(** ** A particle field stays a particle field *)

Lemma update_physics_well_formed (dt : R) (self : PolarSpherePattern)
      (vs : list vec3) (ms : list R) :
  well_formed self vs ms ->
  exists self' vs',
    ParticleSystem.update_physics dt self = Some self'
    /\ well_formed self' vs' ms.
Proof.
  intros Hwf. unfold ParticleSystem.update_physics.
  destruct (compute_forces_some self vs ms Hwf) as [forces [-> Hlf]].
  cbn [bind].
  destruct (integrate_fold dt forces ms (range (len (points self))) self vs
              Hwf Hlf (py_range_NoDup _ _)) as
    [self' [vs' [Hfold [Hwf' _]]]].
  { intros i Hi. now apply in_py_range in Hi. }
  exists self', vs'. split; [exact Hfold | exact Hwf'].
Qed.

Lemma particle_field_well_formed (n : nat) (p : PolarSpherePattern) :
  particle_field_of n p -> exists vs ms, well_formed p vs ms.
Proof.
  intros [vs [ms [Hv [Hm [Hp [_ [Hlv [Hlm [_ [_ Hms]]]]]]]]]].
  exists vs, ms. unfold well_formed.
  split; [exact Hv|]. split; [exact Hm|].
  split; [congruence|]. split; [congruence|].
  eapply Forall_impl; [|exact Hms]. cbv beta. intros m Hr. lra.
Qed.

(** X20.  The shape that [update_physics] needs of its object is the shape
    it leaves behind.  On
    an object with one velocity and one non-zero mass per position the call
    returns, and the object it returns has again one velocity per position
    and the same masses: the method can be called again on its own result. *)
Theorem update_physics_keeps_the_field_well_formed
        (dt : R) (self : PolarSpherePattern)
        (vs : list vec3) (ms : list R) :
  well_formed self vs ms ->
  exists self' vs',
    ParticleSystem.update_physics dt self = Some self'
    /\ well_formed self' vs' ms.
Proof. exact (update_physics_well_formed dt self vs ms). Qed.

Lemma update_physics_keeps_the_field_well_formed_witness :
  well_formed two_particles [(0, 0, 0); (0, 0, 0)]%R [1; 1]%R
  /\ exists self' vs',
       ParticleSystem.update_physics ParticleSystem.default_dt two_particles
       = Some self'
       /\ well_formed self' vs' [1; 1]%R.
Proof.
  assert (Hwf : well_formed two_particles [(0, 0, 0); (0, 0, 0)]%R [1; 1]%R).
  { unfold well_formed. repeat split.
    repeat constructor; apply R1_neq_R0. }
  split; [exact Hwf|].
  exact (update_physics_keeps_the_field_well_formed
           ParticleSystem.default_dt two_particles
           [(0, 0, 0); (0, 0, 0)]%R [1; 1]%R Hwf).
Defined.

(** X21.  The first [generate] of [ParticleSystem], the one that the later
    definition replaces, fits [update_physics].  With random
    numbers drawn from [0, 1) it returns an object of [int(density * 5000)]
    particles on which [update_physics] returns, with as many particles as
    before. *)
Theorem shadowed_generate_then_update_physics
        (rnd : Z -> R) (self : PolarSpherePattern) (d : Q) (dt : R) :
  (forall k, (0 <= rnd k < 1)%R) ->
  exists p p',
    ParticleSystem.generate_shadowed rnd self d = Some p
    /\ List.length (points p) = Z.to_nat (py_int (d * 5000))
    /\ ParticleSystem.update_physics dt p = Some p'
    /\ List.length (points p') = List.length (points p).
Proof.
  intros Hrnd.
  destruct (shadowed_generate_as_claimed rnd self d Hrnd) as [p [Hgen Hfield]].
  destruct (particle_field_well_formed _ p Hfield) as [vs [ms Hwf]].
  destruct (update_physics_well_formed dt p vs ms Hwf) as [p' [vs' [Hup _]]].
  exists p, p'. split; [exact Hgen|].
  split; [destruct Hfield as [? [? [_ [_ [H _]]]]]; exact H|].
  split; [exact Hup|].
  apply (update_physics_keeps dt p p' Hup).
Qed.

Lemma shadowed_generate_then_update_physics_witness :
  exists p p',
    ParticleSystem.generate_shadowed (fun _ => 0%R)
      (ParticleSystem.init_shadowed) (1 # 1000) = Some p
    /\ List.length (points p) = 5%nat
    /\ ParticleSystem.update_physics ParticleSystem.default_dt p = Some p'
    /\ List.length (points p') = List.length (points p).
Proof.
  apply (shadowed_generate_then_update_physics
           (fun _ => 0%R) ParticleSystem.init_shadowed (1 # 1000)
           ParticleSystem.default_dt).
  intros _. lra.
Defined.

(** ** The order of the primes *)

Lemma ordered_pairs_filter {A : Type} (R : A -> A -> Prop) (f : A -> bool)
      (l : list A) :
  ForallOrdPairs R l -> ForallOrdPairs R (filter f l).
Proof.
  induction 1 as [|a l Ha Hl IH]; cbn [filter]; [constructor|].
  destruct (f a); [|exact IH].
  constructor; [|exact IH].
  apply Forall_forall. intros x Hx. apply filter_In in Hx.
  rewrite Forall_forall in Ha. now apply Ha.
Qed.

Lemma ordered_pairs_nth {A : Type} (R : A -> A -> Prop) (l : list A) :
  ForallOrdPairs R l ->
  forall (i j : nat) (p q : A),
    (i < j)%nat -> nth_error l i = Some p -> nth_error l j = Some q -> R p q.
Proof.
  induction 1 as [|a l Ha Hl IH]; intros i j p q Hij Hp Hq.
  - destruct i; discriminate.
  - destruct j as [|j]; [lia|]. cbn [nth_error] in Hq.
    destruct i as [|i].
    + cbn [nth_error] in Hp. injection Hp as <-.
      rewrite Forall_forall in Ha. apply Ha. eapply nth_error_In, Hq.
    + cbn [nth_error] in Hp. apply (IH i j p q); [lia | exact Hp | exact Hq].
Qed.

Lemma seq_ordered (a : Z) (n s : nat) :
  ForallOrdPairs Z.lt (map (fun k => a + Z.of_nat k) (seq s n)).
Proof.
  revert s. induction n as [|n IH]; intros s; cbn [seq map]; [constructor|].
  constructor; [|apply IH].
  apply Forall_forall. intros x Hx. apply in_map_iff in Hx.
  destruct Hx as [k [<- Hk]]. apply in_seq in Hk. lia.
Qed.

Lemma primes_upto_ordered (m : Z) :
  ForallOrdPairs Z.lt (PrimeSpiral.primes_upto m).
Proof.
  unfold PrimeSpiral.primes_upto. rewrite collect_filter. cbn [app].
  apply ordered_pairs_filter. unfold py_range. apply seq_ordered.
Qed.

(** X22.  The first loop of [PrimeSpiral.generate] collects the primes in
    increasing order.  Of two entries of the list of primes the
    one at the smaller index is the smaller prime, so the index that the
    second loop gives a prime is its rank among the primes below
    [max_num]. *)
Theorem primes_collected_in_increasing_order
        (max_num : Z) (i j : nat) (p q : Z) :
  (i < j)%nat ->
  nth_error (PrimeSpiral.primes_upto max_num) i = Some p ->
  nth_error (PrimeSpiral.primes_upto max_num) j = Some q ->
  p < q.
Proof.
  exact (ordered_pairs_nth Z.lt _ (primes_upto_ordered max_num) i j p q).
Qed.

Lemma primes_collected_in_increasing_order_witness :
  (0 < 3)%nat
  /\ nth_error (PrimeSpiral.primes_upto 10) 0 = Some 2
  /\ nth_error (PrimeSpiral.primes_upto 10) 3 = Some 7
  /\ 2 < 7.
Proof.
  assert (H0 : nth_error (PrimeSpiral.primes_upto 10) 0 = Some 2)
    by reflexivity.
  assert (H3 : nth_error (PrimeSpiral.primes_upto 10) 3 = Some 7)
    by reflexivity.
  split; [lia|]. split; [exact H0|]. split; [exact H3|].
  apply (primes_collected_in_increasing_order 10 0 3 2 7); [lia | exact H0 | exact H3].
Defined.

(** ** The bracketing of a frame *)

Lemma brackets_app (s : nat * bool) (l1 l2 : list gl_call) :
  brackets s (l1 ++ l2) = (s' <- brackets s l1 ;; brackets s' l2).
Proof.
  revert s. induction l1 as [|c l1 IH]; intros s; cbn [app brackets];
    [reflexivity|].
  destruct (bracket_step s c) as [s'|]; cbn [bind]; [apply IH | reflexivity].
Qed.

Lemma brackets_vertices (now : Z -> R) (d : nat)
      (l : list (Z * (vec3 * color4))) :
  brackets (d, true) (flat_map (fun ipc => vertex (now (fst ipc)) ipc) l)
  = Some (d, true).
Proof.
  induction l as [|[i [[[x y] z] [[[r g] b] a]]] l IH]; [reflexivity|].
  cbn [flat_map]. rewrite brackets_app.
  change (brackets (d, true) (vertex (now (fst (i, (x, y, z, (r, g, b, a)))))
                                     (i, (x, y, z, (r, g, b, a)))))
    with (Some (d, true)).
  exact IH.
Qed.

Lemma brackets_block (now : Z -> R) (d : nat) (size : R)
      (l : list (Z * (vec3 * color4))) :
  brackets (d, false)
           ([glPointSize size; glBegin]
            ++ flat_map (fun ipc => vertex (now (fst ipc)) ipc) l ++ [glEnd])
  = Some (d, false).
Proof.
  change (brackets (d, true)
            (flat_map (fun ipc => vertex (now (fst ipc)) ipc) l ++ [glEnd])
          = Some (d, false)).
  rewrite brackets_app, brackets_vertices. reflexivity.
Qed.

Lemma brackets_draw_immediate now pattern (d : nat) :
  brackets (d, false) (draw_immediate now pattern) = Some (d, false).
Proof.
  rewrite draw_immediate_blocks. cbv zeta.
  set (l := enumerate (combine (points pattern) (colors pattern))).
  rewrite brackets_app, (brackets_block (now 0)). cbn [bind].
  rewrite brackets_app, (brackets_block (now 1)). cbn [bind].
  rewrite brackets_app, (brackets_block (now 2)). reflexivity.
Qed.

(** X23.  The calls that [render_pattern] and [render_overlay_effects]
    issue for a frame are well bracketed, whatever the pattern and on either
    drawing path.  Every [glBegin] is closed by a
    [glEnd] with only [glColor4f] and [glVertex3f] in between, every
    [glPushMatrix] is undone by a [glPopMatrix], and the frame leaves the
    matrix stack at the depth at which it found it, with no [glBegin]
    open. *)
Theorem frame_calls_are_well_bracketed
        (now : Z -> Z -> R) (rotation : Q)
        (pattern pattern' : PolarSpherePattern) (calls : list gl_call) :
  render_pattern now rotation pattern = Some (pattern', calls) ->
  brackets (0%nat, false) calls = Some (0%nat, false).
Proof.
  unfold render_pattern. intros H.
  destruct (match cls pattern with
            | ClsParticleSystem =>
                ParticleSystem.update_physics ParticleSystem.default_dt pattern
            | _ => Some pattern
            end) as [p|]; [|discriminate].
  unfold bind in H. injection H as <- <-.
  cbn [app brackets bracket_step bind].
  rewrite brackets_app.
  assert (Hd : brackets (0%nat, false)
                 (if len (points p) >? threshold
                  then draw_arrays p (len (points p))
                  else draw_immediate now p) = Some (0%nat, false)).
  { destruct (len (points p) >? threshold);
      [reflexivity | apply brackets_draw_immediate]. }
  rewrite Hd. reflexivity.
Qed.

Lemma frame_calls_are_well_bracketed_witness :
  let pattern :=
    set_colors (set_points FibonacciSphere.init
                           [(1, 0, 0); (0, 1, 0); (0, 0, 1)]%R)
               [(1, 0, 0, 1); (0, 1, 0, 1)]%R in
  exists calls,
    render_pattern (fun _ _ => 0%R) 0 pattern = Some (pattern, calls)
    /\ brackets (0%nat, false) calls = Some (0%nat, false).
Proof.
  intros pattern. eexists. split; [reflexivity|].
  exact (frame_calls_are_well_bracketed
           (fun _ _ => 0%R) 0 pattern pattern _ eq_refl).
Defined.

(** ** The keys of the store *)

Lemma sweep_other_records env densities duration other todo :
  forall k st,
    Forall (fun p => other <> name p) todo ->
    BenchmarkResult.lookup
      (BenchmarkResult.pattern_results
         (result (self (final_state
                          (sweep env k todo densities duration st))))) other
    = BenchmarkResult.lookup
        (BenchmarkResult.pattern_results (result (self st))) other.
Proof.
  induction todo as [|pattern rest IH]; intros k st Hnames.
  - reflexivity.
  - inversion Hnames as [|? ? Hne Hrest]; subst. cbn [sweep].
    assert (H := benchmark_pattern_other_records
                   (test env k) duration other densities O pattern st Hne).
    destruct (benchmark_pattern (test env k) O pattern densities duration st)
      as [[finished p] st' | st']; cbn [final_state] in H; [|exact H].
    destruct finished; [|exact H].
    rewrite IH by exact Hrest. exact H.
Qed.

Lemma configured_names (stamp : string) (args : arguments) (other : string) :
  ~ In other pattern_names ->
  Forall (fun p => other <> name p) (patterns (configure stamp args)).
Proof.
  intros Hout. unfold configure.
  assert (Hc : forall c, other <> name (construct c)).
  { intros c ->. apply Hout. unfold pattern_names.
    destruct c; cbn; tauto. }
  destruct (arg_pattern args) as [c|].
  - constructor; [apply Hc | constructor].
  - unfold init. cbn [patterns map]. repeat constructor; apply Hc.
Qed.

(** X24.  Whatever the environment and the command line, the store at the
    end of [main] has records under the four names "Fibonacci Sphere",
    "Prime Spiral", "Mandelbrot Sphere" and "Lorenz Attractor" only.  The
    second constructor of [ParticleSystem] gives it the name of
    [LorenzAttractor], so no record is ever stored under
    "Particle System". *)
Theorem records_only_under_pattern_names
        (env : environment) (stamp : string) (args : arguments) (w : world)
        (other : string) :
  ~ In other pattern_names ->
  BenchmarkResult.lookup
    (BenchmarkResult.pattern_results
       (result (self (snd (main env stamp args w))))) other
  = None.
Proof.
  intros Hout.
  assert (Hnames := configured_names stamp args other Hout).
  unfold main, run_benchmark, run_body, init_pygame.
  set (st0 := mkState (configure stamp args) w) in *.
  assert (H0 : BenchmarkResult.lookup
                 (BenchmarkResult.pattern_results (result (self st0))) other
               = None).
  { unfold st0, configure, init. destruct (arg_pattern args); reflexivity. }
  destruct (setup_fails env); [exact H0|].
  match goal with
  | |- context [sweep env O ?ps ?ds ?du ?s] =>
      assert (H := sweep_other_records env ds du other ps O s Hnames);
      destruct (sweep env O ps ds du s) as [b st' | st']
  end; cbn [final_state] in H; cbn; rewrite <- H0; exact H.
Qed.

Lemma records_only_under_pattern_names_witness :
  BenchmarkResult.lookup
    (BenchmarkResult.pattern_results
       (result (self (snd (main quit_env "2024-01-01T00:00:00"
                                default_arguments empty_world)))))
    "Particle System"
  = None.
Proof.
  apply records_only_under_pattern_names.
  unfold pattern_names. cbn [In]. intros [H|[H|[H|[H|[]]]]]; discriminate H.
Defined.

(** ** A run of the particle system alone *)


